(** * Blacksmith service broker: lifecycle operations and backup schedules

    A shallow embedding of [broker.go] (package [main]) and of
    [shield/shield.go] (package [shield]).

    Conventions of the embedding:
    - a Go [error] is [option string]: [None] is [nil], [Some msg] is an
      error carrying the message that [fmt.Errorf] formatted;
    - a call [v, err := f(...)] whose value is used only when [err == nil]
      returns a sum: [inl v] on success, [inr msg] on failure;
    - methods on pointer receivers that talk to a remote collaborator
      return the collaborator's next state next to their Go results;
    - log lines ([log.Printf], [Debugf]) are not part of the model. *)

From Stdlib Require Import ZArith Ascii String.
From stdpp Require Import gmap strings list fin_maps.

Open Scope string_scope.

(** The Go [error] interface. *)
Definition error : Type := option string.

(** [interface{}] as far as the broker uses it: [nil], or an opaque
    structured value (credentials generated with the manifest). *)
Inductive Value : Type :=
| VString (s : string)
| VMap (fields : list (string * string)).

Definition interface : Type := option Value.

(** [fmt.Sprintf("%s/%s", a, b)] *)
Definition Sprintf_slash (a b : string) : string := a ++ "/" ++ b.

(** ** Types of the libraries the broker is written against *)

Module brokerapi.

Module Service.
Record t : Type := { ID : string; Name : string }.
End Service.

Module ProvisionDetails.
Record t : Type :=
    { ServiceID : string; PlanID : string;
      OrganizationGUID : string; SpaceGUID : string }.
End ProvisionDetails.

Module DeprovisionDetails.
Record t : Type := { PlanID : string; ServiceID : string }.
End DeprovisionDetails.

Module BindDetails.
Record t : Type := { AppGUID : string; PlanID : string; ServiceID : string }.
End BindDetails.

Module UnbindDetails.
Record t : Type := { PlanID : string; ServiceID : string }.
End UnbindDetails.

Module UpdateDetails.
Record t : Type := { ServiceID : string; PlanID : string }.
End UpdateDetails.

Module ProvisionedServiceSpec.
Record t : Type := { IsAsync : bool; DashboardURL : string }.
End ProvisionedServiceSpec.

Module LastOperation.
Record t : Type := { State : string; Description : string }.
  (** [brokerapi.LastOperation{}] *)
Definition zero : t := {| State := ""; Description := "" |}.
End LastOperation.

Module Binding.
Record t : Type := { Credentials : interface; SyslogDrainURL : string }.
  (** [var binding brokerapi.Binding] *)
Definition zero : t := {| Credentials := None; SyslogDrainURL := "" |}.
End Binding.

Definition IsAsync : Type := bool.

End brokerapi.

Module gogobosh.

Module Info.
Record t : Type := { Name : string; UUID : string }.
End Info.

Module Task.
Record t : Type := { ID : Z; State : string }.
End Task.

(** The four calls the broker makes on [*gogobosh.Client]. The director
    is a remote system: each call sees its state [D] and leaves a next
    state. *)
Class Client (D : Type) : Type :=
  { GetInfo : D -> (Info.t + string) * D;
    CreateDeployment : D -> string -> (Task.t + string) * D;
    DeleteDeployment : D -> string -> (Task.t + string) * D;
    GetTask : D -> Z -> (Task.t + string) * D }.

End gogobosh.

(** ** Package [main] *)

(** Of the [Plan] and [Service] structs (declared outside [broker.go]) the
  broker reads [ID], [Name] and [Plans]. *)
Module Plan.
Record t : Type := { ID : string; Name : string }.
(** [Plan{}] *)
Definition zero : t := {| ID := ""; Name := "" |}.
End Plan.

Module Service.
Record t : Type := { ID : string; Plans : list Plan.t }.
End Service.

(** *** The Vault (Operation Ledger) *)

Module Vault.

(** Modelled from the spec: the [Vault] type and its methods [Track],
    [State] and [Clear] are declared outside [broker.go]. The spec gives
    the Ledger one record per [instanceID] with [put -> ok | Error],
    [get -> Record | NotFound] and [delete -> ok | Error]; a record holds
    the kind, the task handle and the credentials. [outage] is the
    "store outage" under which writes and deletes fail. *)
Record OperationRecord : Type :=
  { kind : string; taskID : Z; credentials : interface }.

Record t : Type :=
  { secrets : gmap string OperationRecord; outage : bool }.

(** Modelled from the spec: [Track(instanceID, typ, taskID, creds) error]
    is the Ledger's put; it overwrites any prior record of the instance
    and fails, writing nothing, during an outage. *)
Definition Track (v : t) (instanceID typ : string) (task : Z)
    (creds : interface) : error * t :=
  if outage v then (Some "vault unavailable", v)
  else (None,
        {| secrets :=
             <[instanceID :=
                 {| kind := typ; taskID := task; credentials := creds |}]>
               (secrets v);
           outage := outage v |}).

(** Modelled from the spec: [State(instanceID) (typ, taskID, creds, err)]
    is the Ledger's get; it returns Go's zero values and an error when
    there is no record. *)
Definition State (v : t) (instanceID : string)
    : string * Z * interface * error :=
  match secrets v !! instanceID with
  | Some r => (kind r, taskID r, credentials r, None)
  | None => ("", 0%Z, None, Some "instance not found")
  end.

(** Modelled from the spec: [Clear(instanceID)] is the Ledger's delete;
    the caller sees no result, and nothing is deleted during an outage. *)
Definition Clear (v : t) (instanceID : string) : t :=
  if outage v then v
  else {| secrets := delete instanceID (secrets v); outage := outage v |}.

End Vault.

(** *** The broker *)

Section Broker.

(** The state of the BOSH director behind [b.BOSH]. *)
Context {D : Type} `{!gogobosh.Client D}.

(** Package-level functions declared outside [broker.go]:
    [ReadServices(dir...)] reads the service definitions from disk,
    [Catalog(ss)] turns them into the catalog the broker serves, and
    [GenManifest(plan, params)] renders the deployment manifest and the
    credentials. *)
Variable ReadServices : list string -> list Service.t + string.
Variable Catalog : list Service.t -> list brokerapi.Service.t.
Variable GenManifest :
  Plan.t -> gmap string string -> (string * interface) + string.

Record Broker : Type :=
  { Broker_Catalog : list brokerapi.Service.t;
    Plans : gmap string Plan.t;
    BOSH : D;
    Vault : Vault.t }.

Definition set_BOSH (b : Broker) (d : D) : Broker :=
  {| Broker_Catalog := Broker_Catalog b; Plans := Plans b;
     BOSH := d; Vault := Vault b |}.

Definition set_Vault (b : Broker) (v : Vault.t) : Broker :=
  {| Broker_Catalog := Broker_Catalog b; Plans := Plans b;
     BOSH := BOSH b; Vault := v |}.

Definition FindPlan (b : Broker) (planID serviceID : string)
    : Plan.t * error :=
  let key := Sprintf_slash planID serviceID in
  match Plans b !! key with
  | Some plan => (plan, None)
  | None => (Plan.zero, Some ("plan " ++ key ++ " not found"))
  end.

Definition Services (b : Broker) : list brokerapi.Service.t :=
  Broker_Catalog b.

(** The two nested [range] loops of the method [ReadServices], started on
    the map [m]. *)
Definition track_plans (m : gmap string Plan.t) (ss : list Service.t)
    : gmap string Plan.t :=
  foldl (fun m s =>
           foldl (fun m p =>
                    <[Sprintf_slash (Service.ID s) (Plan.ID p) := p]> m)
                 m (Service.Plans s))
        m ss.

Definition Broker_ReadServices (b : Broker) (dir : list string)
    : error * Broker :=
  match ReadServices dir with
  | inr err => (Some err, b)
  | inl ss =>
      (None,
       {| Broker_Catalog := Catalog ss;
          Plans := track_plans ∅ ss;
          BOSH := BOSH b; Vault := Vault b |})
  end.

Definition Provision (b : Broker) (instanceID : string)
    (details : brokerapi.ProvisionDetails.t) (asyncAllowed : bool)
    : (brokerapi.ProvisionedServiceSpec.t * error) * Broker :=
  let spec :=
    {| brokerapi.ProvisionedServiceSpec.IsAsync := true;
       brokerapi.ProvisionedServiceSpec.DashboardURL := "" |} in
  match FindPlan b (brokerapi.ProvisionDetails.ServiceID details)
                   (brokerapi.ProvisionDetails.PlanID details) with
  | (_, Some err) => ((spec, Some err), b)
  | (plan, None) =>
      let params : gmap string string :=
        <["name" := Plan.Name plan ++ "-" ++ instanceID]> ∅ in
      match gogobosh.GetInfo (BOSH b) with
      | (inr _, d1) =>
          ((spec, Some "BOSH deployment manifest generation failed"),
           set_BOSH b d1)
      | (inl info, d1) =>
          let params :=
            <["director_uuid" := gogobosh.Info.UUID info]> params in
          match GenManifest plan params with
          | inr _ =>
              ((spec, Some "BOSH deployment manifest generation failed"),
               set_BOSH b d1)
          | inl (manifest, creds) =>
              match gogobosh.CreateDeployment d1 manifest with
              | (inr _, d2) =>
                  ((spec, Some "backend BOSH deployment failed"),
                   set_BOSH b d2)
              | (inl task, d2) =>
                  match Vault.Track (Vault b) instanceID "provision"
                                    (gogobosh.Task.ID task) creds with
                  | (Some _, v) =>
                      ((spec, Some "Vault tracking failed"),
                       set_Vault (set_BOSH b d2) v)
                  | (None, v) =>
                      ((spec, None), set_Vault (set_BOSH b d2) v)
                  end
              end
          end
      end
  end.

Definition Deprovision (b : Broker) (instanceID : string)
    (details : brokerapi.DeprovisionDetails.t) (asyncAllowed : bool)
    : (brokerapi.IsAsync * error) * Broker :=
  match gogobosh.DeleteDeployment (BOSH b) instanceID with
  | (inr err, d1) => ((true, Some err), set_BOSH b d1)
  | (inl task, d1) =>
      let '(_, v) :=
        Vault.Track (Vault b) instanceID "deprovision"
                    (gogobosh.Task.ID task) None in
      ((true, None), set_Vault (set_BOSH b d1) v)
  end.

Definition LastOperation (b : Broker) (instanceID : string)
    : (brokerapi.LastOperation.t * error) * Broker :=
  let op (state : string) : brokerapi.LastOperation.t :=
    {| brokerapi.LastOperation.State := state;
       brokerapi.LastOperation.Description := "" |} in
  let '(typ, taskID, _, _) := Vault.State (Vault b) instanceID in
  if String.eqb typ "provision" then
    match gogobosh.GetTask (BOSH b) taskID with
    | (inr _, d1) =>
        ((brokerapi.LastOperation.zero,
          Some "unrecognized backend BOSH task"), set_BOSH b d1)
    | (inl task, d1) =>
        if String.eqb (gogobosh.Task.State task) "done" then
          ((op "succeeded", None), set_BOSH b d1)
        else if String.eqb (gogobosh.Task.State task) "error" then
          ((op "failed", None), set_BOSH b d1)
        else
          ((op "in progress", None), set_BOSH b d1)
    end
  else if String.eqb typ "deprovision" then
    match gogobosh.GetTask (BOSH b) taskID with
    | (inr _, d1) =>
        ((brokerapi.LastOperation.zero,
          Some "unrecognized backend BOSH task"), set_BOSH b d1)
    | (inl task, d1) =>
        if String.eqb (gogobosh.Task.State task) "done" then
          ((op "succeeded", None),
           set_Vault (set_BOSH b d1) (Vault.Clear (Vault b) instanceID))
        else if String.eqb (gogobosh.Task.State task) "error" then
          ((op "failed", None),
           set_Vault (set_BOSH b d1) (Vault.Clear (Vault b) instanceID))
        else
          ((op "in progress", None), set_BOSH b d1)
    end
  else
    ((brokerapi.LastOperation.zero,
      Some ("invalid state type '" ++ typ ++ "'")), b).

Definition Bind (b : Broker) (instanceID bindingID : string)
    (details : brokerapi.BindDetails.t)
    : (brokerapi.Binding.t * error) * Broker :=
  let binding := brokerapi.Binding.zero in
  let '(_, _, creds, _) := Vault.State (Vault b) instanceID in
  let binding :=
    {| brokerapi.Binding.Credentials := creds;
       brokerapi.Binding.SyslogDrainURL :=
         brokerapi.Binding.SyslogDrainURL binding |} in
  ((binding, None), b).

Definition Unbind (b : Broker) (instanceID bindingID : string)
    (details : brokerapi.UnbindDetails.t) : error * Broker :=
  (None, b).

Definition Update (b : Broker) (instanceID : string)
    (details : brokerapi.UpdateDetails.t) (asyncAllowed : bool)
    : (brokerapi.IsAsync * error) * Broker :=
  ((false, Some "not implemented"), b).

End Broker.

(** ** Package [shield]: backup schedules *)

(** The SHIELD client library that [shield.go] imports under the name
    [shield]; of its structs, the fields that [shield.go] sets or reads. *)
Module shield_client.

Module Tenant.
Record t : Type := { UUID : string }.
End Tenant.

Module Store.
Record t : Type := { UUID : string }.
End Store.

Module Target.
Record t : Type :=
  { UUID : string; Name : string; Summary : string;
    Plugin : string; Compression : string }.
(** [&shield.Target{UUID: uuid}] *)
Definition of_UUID (uuid : string) : t :=
  {| UUID := uuid; Name := ""; Summary := ""; Plugin := "";
     Compression := "" |}.
End Target.

Module Job.
(** [Target_UUID] is the field [UUID] of the nested struct [Target]. *)
Record t : Type :=
  { UUID : string; Name : string; Summary : string;
    TargetUUID : string; StoreUUID : string;
    Schedule : string; Retain : string; Retries : Z;
    Target_UUID : string }.
(** [&shield.Job{UUID: uuid}] *)
Definition of_UUID (uuid : string) : t :=
  {| UUID := uuid; Name := ""; Summary := ""; TargetUUID := "";
     StoreUUID := ""; Schedule := ""; Retain := ""; Retries := 0;
     Target_UUID := "" |}.
End Job.

Module Response.
Record t : Type := { OK : string }.
End Response.

(** The calls made on [*shield.Client], over the state [S] of the SHIELD
    core they talk to. *)
Class Client (S : Type) : Type :=
  { CreateTarget : S -> Tenant.t -> Target.t -> (Target.t + string) * S;
    CreateJob : S -> Tenant.t -> Job.t -> (Job.t + string) * S;
    FindJob : S -> Tenant.t -> string -> bool -> (Job.t + string) * S;
    DeleteTarget : S -> Tenant.t -> Target.t -> (Response.t + string) * S;
    DeleteJob : S -> Tenant.t -> Job.t -> (Response.t + string) * S }.

End shield_client.

Module shield.

Import shield_client.

Section NetworkClient.

Context {S : Type} `{!Client S}.

Record NetworkClient : Type :=
  { shield : S;
    tenant : Tenant.t;
    store : Store.t;
    schedule : string;
    retain : string;
    enabledOnTargets : list string }.

Definition set_shield (cli : NetworkClient) (s : S) : NetworkClient :=
  {| shield := s; tenant := tenant cli; store := store cli;
     schedule := schedule cli; retain := retain cli;
     enabledOnTargets := enabledOnTargets cli |}.

(** [strings.Join(s, ":")] *)
Definition join (s : list string) : string := String.concat ":" s.

Definition CreateSchedule (cli : NetworkClient) (instanceID : string)
    (details : brokerapi.ProvisionDetails.t) : error * NetworkClient :=
  let target :=
    {| Target.UUID := "";
       Target.Name :=
         join ["targets"; brokerapi.ProvisionDetails.ServiceID details;
               brokerapi.ProvisionDetails.PlanID details; instanceID];
       Target.Summary := "This target is managed by Blacksmith.";
       Target.Plugin := "rabbitmq-broker";
       Target.Compression := "bzip2" |} in
  match CreateTarget (shield cli) (tenant cli) target with
  | (inr err, s1) => (Some err, set_shield cli s1)
  | (inl target, s1) =>
      let job :=
        {| Job.UUID := "";
           Job.Name :=
             join ["jobs"; brokerapi.ProvisionDetails.ServiceID details;
                   brokerapi.ProvisionDetails.PlanID details; instanceID];
           Job.Summary := "This job is managed by Blacksmith.";
           Job.TargetUUID := Target.UUID target;
           Job.StoreUUID := Store.UUID (store cli);
           Job.Schedule := schedule cli;
           Job.Retain := retain cli;
           Job.Retries := 3;
           Job.Target_UUID := "" |} in
      match CreateJob s1 (tenant cli) job with
      | (inr err, s2) => (Some err, set_shield cli s2)
      | (inl _, s2) => (None, set_shield cli s2)
      end
  end.

Definition DeleteSchedule (cli : NetworkClient) (instanceID : string)
    (details : brokerapi.DeprovisionDetails.t) : error * NetworkClient :=
  let name :=
    join ["jobs"; brokerapi.DeprovisionDetails.ServiceID details;
          brokerapi.DeprovisionDetails.PlanID details; instanceID] in
  match FindJob (shield cli) (tenant cli) ("name=" ++ name) false with
  | (inr err, s1) => (Some err, set_shield cli s1)
  | (inl job, s1) =>
      match DeleteTarget s1 (tenant cli)
                         (Target.of_UUID (Job.Target_UUID job)) with
      | (inr err, s2) => (Some err, set_shield cli s2)
      | (inl _, s2) =>
          match DeleteJob s2 (tenant cli) (Job.of_UUID (Job.UUID job)) with
          | (inr err, s3) => (Some err, set_shield cli s3)
          | (inl _, s3) => (None, set_shield cli s3)
          end
      end
  end.

End NetworkClient.

Arguments NetworkClient S : clear implicits.

(** *** Recording the calls a client makes *)

Inductive Call : Type :=
| CallCreateTarget (name : string)
| CallCreateJob (name : string)
| CallFindJob (q : string)
| CallDeleteTarget (uuid : string)
| CallDeleteJob (uuid : string).

(** A client that appends every call it forwards to a log. *)
Definition recording {S : Type} (C : Client S) : Client (S * list Call) :=
  {| CreateTarget := fun sl tenant target =>
       let '(r, s') := CreateTarget (fst sl) tenant target in
       (r, (s', snd sl ++ [CallCreateTarget (Target.Name target)])%list);
     CreateJob := fun sl tenant job =>
       let '(r, s') := CreateJob (fst sl) tenant job in
       (r, (s', snd sl ++ [CallCreateJob (Job.Name job)])%list);
     FindJob := fun sl tenant q fuzzy =>
       let '(r, s') := FindJob (fst sl) tenant q fuzzy in
       (r, (s', snd sl ++ [CallFindJob q])%list);
     DeleteTarget := fun sl tenant target =>
       let '(r, s') := DeleteTarget (fst sl) tenant target in
       (r, (s', snd sl ++ [CallDeleteTarget (Target.UUID target)])%list);
     DeleteJob := fun sl tenant job =>
       let '(r, s') := DeleteJob (fst sl) tenant job in
       (r, (s', snd sl ++ [CallDeleteJob (Job.UUID job)])%list) |}.

(** The same client configuration, talking through an empty log. *)
Definition with_log {S : Type} (cli : NetworkClient S)
    : NetworkClient (S * list Call) :=
  {| shield := (shield cli, []); tenant := tenant cli; store := store cli;
     schedule := schedule cli; retain := retain cli;
     enabledOnTargets := enabledOnTargets cli |}.

(** The job name that [DeleteSchedule] looks up. *)
Definition job_query (instanceID : string)
    (details : brokerapi.DeprovisionDetails.t) : string :=
  "name=" ++ join ["jobs"; brokerapi.DeprovisionDetails.ServiceID details;
                   brokerapi.DeprovisionDetails.PlanID details; instanceID].

(** The calls that [DeleteSchedule] makes, in the order it makes them. *)
Definition DeleteSchedule_calls {S : Type} (C : Client S)
    (cli : NetworkClient S) (instanceID : string)
    (details : brokerapi.DeprovisionDetails.t) : list Call :=
  snd (shield (snd (@DeleteSchedule _ (recording C) (with_log cli)
                      instanceID details))).

End shield.

(** ** Error kinds

    The broker builds its errors with [fmt.Errorf]; these are the messages
    behind the spec's error kinds. The spec's [BackendUnavailable] and
    [InstanceNotFound] have no message in [broker.go]. *)

Definition PlanNotFound (key : string) : string :=
  "plan " ++ key ++ " not found".
Definition ManifestGenerationFailed : string :=
  "BOSH deployment manifest generation failed".
Definition BackendDeploymentFailed : string :=
  "backend BOSH deployment failed".
Definition LedgerWriteFailed : string := "Vault tracking failed".
Definition UnrecognizedTask : string := "unrecognized backend BOSH task".
Definition InvalidOperationState (typ : string) : string :=
  "invalid state type '" ++ typ ++ "'".
Definition NotSupported : string := "not implemented".

(** [brokerapi.LastOperation{State: state}] *)
Definition operation (state : string) : brokerapi.LastOperation.t :=
  {| brokerapi.LastOperation.State := state;
     brokerapi.LastOperation.Description := "" |}.

(** [brokerapi.ProvisionedServiceSpec{IsAsync: true}] *)
Definition async_spec : brokerapi.ProvisionedServiceSpec.t :=
  {| brokerapi.ProvisionedServiceSpec.IsAsync := true;
     brokerapi.ProvisionedServiceSpec.DashboardURL := "" |}.

(** The parameters Provision hands to [GenManifest]. *)
Definition manifest_params (plan : Plan.t) (instanceID : string)
    (info : gogobosh.Info.t) : gmap string string :=
  <["director_uuid" := gogobosh.Info.UUID info]>
    (<["name" := Plan.Name plan ++ "-" ++ instanceID]> ∅).

(** The catalog [ss] contains a plan for [(serviceID, planID)]. *)
Definition has_plan (ss : list Service.t) (serviceID planID : string) : Prop :=
  exists s p, s ∈ ss /\ p ∈ Service.Plans s /\
              Service.ID s = serviceID /\ Plan.ID p = planID.

(** The plans of the services [ss], each with the ID of its service, in
    catalog order. *)
Definition catalog_plans (ss : list Service.t) : list (string * Plan.t) :=
  s ← ss; (fun p => (Service.ID s, p)) <$> Service.Plans s.

(** The string has no ["/"], the separator of the plan keys. *)
Fixpoint no_slash (s : string) : bool :=
  match s with
  | EmptyString => true
  | String c s' => negb (Ascii.eqb c "/"%char) && no_slash s'
  end.

(** ** Fixtures: a scripted director, an in-memory SHIELD, a small catalog *)

Module Fixtures.

(** A director that answers every call from a script and keeps no state
    of its own. *)
Record Director : Type :=
  { info : gogobosh.Info.t + string;
    deploy : gogobosh.Task.t + string;
    teardown : gogobosh.Task.t + string;
    tasks : gmap Z gogobosh.Task.t }.

#[export] Instance Director_Client : gogobosh.Client Director :=
  {| gogobosh.GetInfo := fun d => (info d, d);
     gogobosh.CreateDeployment := fun d _ => (deploy d, d);
     gogobosh.DeleteDeployment := fun d _ => (teardown d, d);
     gogobosh.GetTask := fun d id =>
       (match tasks d !! id with
        | Some t => inl t
        | None => inr "task not found"
        end, d) |}.

Definition task (id : Z) (state : string) : gogobosh.Task.t :=
  {| gogobosh.Task.ID := id; gogobosh.Task.State := state |}.

Definition director (task_state : string) : Director :=
  {| info := inl {| gogobosh.Info.Name := "bosh";
                    gogobosh.Info.UUID := "uuid-1" |};
     deploy := inl (task 1 "queued");
     teardown := inl (task 2 "queued");
     tasks := {[ 1%Z := task 1 task_state; 2%Z := task 2 task_state ]} |}.

Definition director_info_down : Director :=
  {| info := inr "connection refused";
     deploy := inl (task 1 "queued");
     teardown := inl (task 2 "queued");
     tasks := ∅ |}.

Definition director_teardown_rejected : Director :=
  {| info := inr "connection refused";
     deploy := inr "connection refused";
     teardown := inr "connection refused";
     tasks := ∅ |}.

Definition redis_plan : Plan.t := {| Plan.ID := "p1"; Plan.Name := "redis" |}.

Definition services : list Service.t :=
  [ {| Service.ID := "s1"; Service.Plans := [redis_plan] |} ].

Definition ReadServices (dir : list string) : list Service.t + string :=
  inl services.

Definition Catalog (ss : list Service.t) : list brokerapi.Service.t :=
  (fun s => {| brokerapi.Service.ID := Service.ID s;
               brokerapi.Service.Name := Service.ID s |}) <$> ss.

Definition creds : interface := Some (VMap [("password", "c1")]).

Definition GenManifest (plan : Plan.t) (params : gmap string string)
    : (string * interface) + string :=
  inl ("name: " ++ default "" (params !! "name"), creds).

Definition GenManifest_failing (plan : Plan.t) (params : gmap string string)
    : (string * interface) + string :=
  inr "template error".

Definition vault (down : bool) : Vault.t :=
  {| Vault.secrets := ∅; Vault.outage := down |}.

Definition vault_with (typ : string) (id : Z) : Vault.t :=
  {| Vault.secrets :=
       {[ "i1" := {| Vault.kind := typ; Vault.taskID := id;
                     Vault.credentials := creds |} ]};
     Vault.outage := false |}.

Definition broker (d : Director) (v : Vault.t) : Broker :=
  {| Broker_Catalog := Catalog services;
     Plans := {[ "s1/p1" := redis_plan ]};
     BOSH := d;
     Vault := v |}.

Definition provision_details : brokerapi.ProvisionDetails.t :=
  {| brokerapi.ProvisionDetails.ServiceID := "s1";
     brokerapi.ProvisionDetails.PlanID := "p1";
     brokerapi.ProvisionDetails.OrganizationGUID := "org";
     brokerapi.ProvisionDetails.SpaceGUID := "space" |}.

(** Details with the two IDs in each other's place. *)
Definition swapped_details : brokerapi.ProvisionDetails.t :=
  {| brokerapi.ProvisionDetails.ServiceID := "p1";
     brokerapi.ProvisionDetails.PlanID := "s1";
     brokerapi.ProvisionDetails.OrganizationGUID := "org";
     brokerapi.ProvisionDetails.SpaceGUID := "space" |}.

Definition deprovision_details : brokerapi.DeprovisionDetails.t :=
  {| brokerapi.DeprovisionDetails.PlanID := "p1";
     brokerapi.DeprovisionDetails.ServiceID := "s1" |}.

Definition bind_details : brokerapi.BindDetails.t :=
  {| brokerapi.BindDetails.AppGUID := "app";
     brokerapi.BindDetails.PlanID := "p1";
     brokerapi.BindDetails.ServiceID := "s1" |}.

(** An in-memory SHIELD core: the jobs and targets of one tenant. A
    lookup by name fails unless exactly one job matches. *)
Record Shield : Type :=
  { jobs : list shield_client.Job.t;
    targets : list shield_client.Target.t }.

Definition job_matches (q : string) (j : shield_client.Job.t) : bool :=
  String.eqb q ("name=" ++ shield_client.Job.Name j).

Definition stored_target (t : shield_client.Target.t)
    : shield_client.Target.t :=
  {| shield_client.Target.UUID := "uuid-of-" ++ shield_client.Target.Name t;
     shield_client.Target.Name := shield_client.Target.Name t;
     shield_client.Target.Summary := shield_client.Target.Summary t;
     shield_client.Target.Plugin := shield_client.Target.Plugin t;
     shield_client.Target.Compression := shield_client.Target.Compression t |}.

Definition stored_job (j : shield_client.Job.t) : shield_client.Job.t :=
  {| shield_client.Job.UUID := "uuid-of-" ++ shield_client.Job.Name j;
     shield_client.Job.Name := shield_client.Job.Name j;
     shield_client.Job.Summary := shield_client.Job.Summary j;
     shield_client.Job.TargetUUID := shield_client.Job.TargetUUID j;
     shield_client.Job.StoreUUID := shield_client.Job.StoreUUID j;
     shield_client.Job.Schedule := shield_client.Job.Schedule j;
     shield_client.Job.Retain := shield_client.Job.Retain j;
     shield_client.Job.Retries := shield_client.Job.Retries j;
     shield_client.Job.Target_UUID := shield_client.Job.TargetUUID j |}.

#[export] Instance Shield_Client : shield_client.Client Shield :=
  {| shield_client.CreateTarget := fun s _ t =>
       (inl (stored_target t),
        {| jobs := jobs s; targets := (targets s ++ [stored_target t])%list |});
     shield_client.CreateJob := fun s _ j =>
       (inl (stored_job j),
        {| jobs := (jobs s ++ [stored_job j])%list; targets := targets s |});
     shield_client.FindJob := fun s _ q _ =>
       (match List.filter (job_matches q) (jobs s) with
        | [] => inr "no matching job found"
        | [j] => inl j
        | _ => inr "multiple matching jobs found"
        end, s);
     shield_client.DeleteTarget := fun s _ t =>
       (inl {| shield_client.Response.OK := "target deleted" |},
        {| jobs := jobs s;
           targets :=
             List.filter
               (fun t' => negb (String.eqb (shield_client.Target.UUID t')
                                           (shield_client.Target.UUID t)))
               (targets s) |});
     shield_client.DeleteJob := fun s _ j =>
       (inl {| shield_client.Response.OK := "job deleted" |},
        {| jobs :=
             List.filter
               (fun j' => negb (String.eqb (shield_client.Job.UUID j')
                                           (shield_client.Job.UUID j)))
               (jobs s);
           targets := targets s |}) |}.

Definition network_client (s : Shield) : shield.NetworkClient Shield :=
  {| shield.shield := s;
     shield.tenant := {| shield_client.Tenant.UUID := "tenant-1" |};
     shield.store := {| shield_client.Store.UUID := "store-1" |};
     shield.schedule := "daily 3am";
     shield.retain := "7d";
     shield.enabledOnTargets := [] |}.

Definition empty_shield : Shield := {| jobs := []; targets := [] |}.

(** The SHIELD core after [CreateSchedule] for instance [i1]. *)
Definition scheduled_shield : Shield :=
  shield.shield
    (snd (shield.CreateSchedule (network_client empty_shield) "i1"
            provision_details)).

End Fixtures.

(** ** Recording the calls the broker makes on the director *)

Inductive DirectorCall : Type :=
| CallGetInfo
| CallCreateDeployment (manifest : string)
| CallDeleteDeployment (name : string)
| CallGetTask (id : Z).

(** A director client that appends every call it forwards to a log. *)
Definition recording_director {D : Type} (C : gogobosh.Client D)
    : gogobosh.Client (D * list DirectorCall) :=
  {| gogobosh.GetInfo := fun dl =>
       let '(r, d') := gogobosh.GetInfo (fst dl) in
       (r, (d', snd dl ++ [CallGetInfo])%list);
     gogobosh.CreateDeployment := fun dl manifest =>
       let '(r, d') := gogobosh.CreateDeployment (fst dl) manifest in
       (r, (d', snd dl ++ [CallCreateDeployment manifest])%list);
     gogobosh.DeleteDeployment := fun dl name =>
       let '(r, d') := gogobosh.DeleteDeployment (fst dl) name in
       (r, (d', snd dl ++ [CallDeleteDeployment name])%list);
     gogobosh.GetTask := fun dl id =>
       let '(r, d') := gogobosh.GetTask (fst dl) id in
       (r, (d', snd dl ++ [CallGetTask id])%list) |}.

(** The same broker, talking to its director through an empty log. *)
Definition with_director_log {D : Type} (b : @Broker D)
    : @Broker (D * list DirectorCall) :=
  {| Broker_Catalog := Broker_Catalog b; Plans := Plans b;
     BOSH := (BOSH b, []); Vault := Vault b |}.

(** The director calls of one [Provision], [Deprovision] or
    [LastOperation], in the order they are made. *)
Definition Provision_calls {D : Type} (C : gogobosh.Client D)
    (GenManifest :
       Plan.t -> gmap string string -> (string * interface) + string)
    (b : @Broker D) (instanceID : string)
    (details : brokerapi.ProvisionDetails.t) (asyncAllowed : bool)
    : list DirectorCall :=
  snd (BOSH (snd (@Provision _ (recording_director C) GenManifest
                    (with_director_log b) instanceID details asyncAllowed))).

Definition Deprovision_calls {D : Type} (C : gogobosh.Client D)
    (b : @Broker D) (instanceID : string)
    (details : brokerapi.DeprovisionDetails.t) (asyncAllowed : bool)
    : list DirectorCall :=
  snd (BOSH (snd (@Deprovision _ (recording_director C)
                    (with_director_log b) instanceID details asyncAllowed))).

Definition LastOperation_calls {D : Type} (C : gogobosh.Client D)
    (b : @Broker D) (instanceID : string) : list DirectorCall :=
  snd (BOSH (snd (@LastOperation _ (recording_director C)
                    (with_director_log b) instanceID))).

(** The calls that [CreateSchedule] makes on SHIELD, in order. *)
Definition CreateSchedule_calls {S : Type} (C : shield_client.Client S)
    (cli : shield.NetworkClient S) (instanceID : string)
    (details : brokerapi.ProvisionDetails.t) : list shield.Call :=
  snd (shield.shield
         (snd (@shield.CreateSchedule _ (shield.recording C)
                 (shield.with_log cli) instanceID details))).

(** The state that [LastOperation] reports for a polled task status. *)
Definition reported_state (status : string) : string :=
  if String.eqb status "done" then "succeeded"
  else if String.eqb status "error" then "failed"
  else "in progress".

(** The key under which the method [ReadServices] tracks a plan. *)
Definition plan_key (sp : string * Plan.t) : string :=
  Sprintf_slash sp.1 (Plan.ID sp.2).

(** The string has no [":"], the separator of SHIELD names. *)
Fixpoint no_colon (s : string) : bool :=
  match s with
  | EmptyString => true
  | String c s' => negb (Ascii.eqb c ":"%char) && no_colon s'
  end.

(** * Properties of the broker *)

Section BrokerProperties.

Context {D : Type} `{!gogobosh.Client D}.
Variable ReadServices : list string -> list Service.t + string.
Variable Catalog : list Service.t -> list brokerapi.Service.t.
Variable GenManifest :
  Plan.t -> gmap string string -> (string * interface) + string.

Implicit Types (b : @Broker D) (instanceID bindingID : string).

(** ** The Vault model *)

Lemma State_record (v : Vault.t) (instanceID : string) r :
  Vault.secrets v !! instanceID = Some r ->
  Vault.State v instanceID =
    (Vault.kind r, Vault.taskID r, Vault.credentials r, None).
Proof. intros Hr. unfold Vault.State. by rewrite Hr. Qed.

Lemma State_no_record (v : Vault.t) (instanceID : string) :
  Vault.secrets v !! instanceID = None ->
  Vault.State v instanceID = ("", 0%Z, None, Some "instance not found").
Proof. intros Hr. unfold Vault.State. by rewrite Hr. Qed.

Lemma Clear_deletes (v : Vault.t) (instanceID : string) :
  Vault.outage v = false ->
  Vault.secrets (Vault.Clear v instanceID) !! instanceID = None.
Proof.
  intros Hup. unfold Vault.Clear. rewrite Hup. cbn.
  apply lookup_delete_eq.
Qed.

Lemma Clear_other (v : Vault.t) (instanceID other : string) :
  instanceID <> other ->
  Vault.secrets (Vault.Clear v instanceID) !! other =
  Vault.secrets v !! other.
Proof.
  intros Hne. unfold Vault.Clear. destruct (Vault.outage v); [done|].
  cbn. by apply lookup_delete_ne.
Qed.

Lemma Track_fails_unchanged (v v' : Vault.t) instanceID typ task creds e :
  Vault.Track v instanceID typ task creds = (Some e, v') -> v' = v.
Proof.
  unfold Vault.Track. destruct (Vault.outage v); intros [= ]; done.
Qed.

(** ** Bind *)

(** C1 (as amended): Bind never fails. For every instanceID it returns a
    binding with a nil error and leaves the broker as it was; the binding
    carries the credentials of the instance's Operation Record, and nil
    credentials when the Ledger has no record for the instanceID. *)
Theorem Bind_always_succeeds b instanceID bindingID details :
  Bind b instanceID bindingID details =
    (({| brokerapi.Binding.Credentials :=
           match Vault.secrets (Vault b) !! instanceID with
           | Some r => Vault.credentials r
           | None => None
           end;
         brokerapi.Binding.SyslogDrainURL := "" |}, None), b).
Proof.
  unfold Bind, Vault.State.
  by destruct (Vault.secrets (Vault b) !! instanceID).
Qed.

(** ** LastOperation *)

(** C2: LastOperation by record kind and polled task status. With a
    [provision] record: done gives succeeded, error gives failed, any
    other status gives in progress, and the Ledger is untouched. With a
    [deprovision] record the mapping is the same, and on done and on error
    the Ledger's delete is applied to the instanceID (the record is gone
    unless the store is in an outage). With no record, or a record of
    another kind, the result is the InvalidOperationState error. *)
Theorem LastOperation_by_kind_and_status b instanceID :
  (forall r task d1,
      Vault.secrets (Vault b) !! instanceID = Some r ->
      Vault.kind r = "provision" ->
      gogobosh.GetTask (BOSH b) (Vault.taskID r) = (inl task, d1) ->
      let res := LastOperation b instanceID in
      Vault (snd res) = Vault b /\
      (gogobosh.Task.State task = "done" ->
       fst res = (operation "succeeded", None)) /\
      (gogobosh.Task.State task = "error" ->
       fst res = (operation "failed", None)) /\
      (gogobosh.Task.State task <> "done" ->
       gogobosh.Task.State task <> "error" ->
       fst res = (operation "in progress", None))) /\
  (forall r task d1,
      Vault.secrets (Vault b) !! instanceID = Some r ->
      Vault.kind r = "deprovision" ->
      gogobosh.GetTask (BOSH b) (Vault.taskID r) = (inl task, d1) ->
      let res := LastOperation b instanceID in
      (gogobosh.Task.State task = "done" ->
       fst res = (operation "succeeded", None) /\
       Vault (snd res) = Vault.Clear (Vault b) instanceID /\
       (Vault.outage (Vault b) = false ->
        Vault.secrets (Vault (snd res)) !! instanceID = None)) /\
      (gogobosh.Task.State task = "error" ->
       fst res = (operation "failed", None) /\
       Vault (snd res) = Vault.Clear (Vault b) instanceID /\
       (Vault.outage (Vault b) = false ->
        Vault.secrets (Vault (snd res)) !! instanceID = None)) /\
      (gogobosh.Task.State task <> "done" ->
       gogobosh.Task.State task <> "error" ->
       fst res = (operation "in progress", None) /\
       Vault (snd res) = Vault b)) /\
  (Vault.secrets (Vault b) !! instanceID = None ->
   LastOperation b instanceID =
     ((brokerapi.LastOperation.zero, Some (InvalidOperationState "")), b)) /\
  (forall r,
      Vault.secrets (Vault b) !! instanceID = Some r ->
      Vault.kind r <> "provision" ->
      Vault.kind r <> "deprovision" ->
      LastOperation b instanceID =
        ((brokerapi.LastOperation.zero,
          Some (InvalidOperationState (Vault.kind r))), b)).
Proof.
  split; [|split; [|split]].
  - intros r task d1 Hr Hk Ht res. subst res. unfold LastOperation.
    rewrite (State_record _ _ _ Hr), Hk, Ht. cbn.
    destruct (String.eqb_spec (gogobosh.Task.State task) "done") as [Hd|Hd];
      [|destruct (String.eqb_spec (gogobosh.Task.State task) "error")
          as [He|He]];
      cbn; repeat split; intros; first [done | congruence].
  - intros r task d1 Hr Hk Ht res. subst res. unfold LastOperation.
    rewrite (State_record _ _ _ Hr), Hk, Ht. cbn.
    destruct (String.eqb_spec (gogobosh.Task.State task) "done") as [Hd|Hd];
      [|destruct (String.eqb_spec (gogobosh.Task.State task) "error")
          as [He|He]];
      cbn; repeat split; intros;
      first [done | congruence | by apply Clear_deletes].
  - intros Hr. unfold LastOperation. by rewrite (State_no_record _ _ Hr).
  - intros r Hr Hp Hd. unfold LastOperation.
    rewrite (State_record _ _ _ Hr).
    apply String.eqb_neq in Hp, Hd. by rewrite Hp, Hd.
Qed.

(** ** FindPlan *)

(** C6: the lookup that Provision uses, [FindPlan], resolves a plan under
    the key made of its first argument ([planID]), a slash and its second
    argument ([serviceID]); when no plan is stored under that key it fails
    with PlanNotFound, and so does the Provision that called it. *)
Theorem FindPlan_key b (planID serviceID : string) :
  (forall plan,
      Plans b !! (planID ++ "/" ++ serviceID) = Some plan ->
      FindPlan b planID serviceID = (plan, None)) /\
  (Plans b !! (planID ++ "/" ++ serviceID) = None ->
   FindPlan b planID serviceID =
     (Plan.zero, Some (PlanNotFound (planID ++ "/" ++ serviceID)))) /\
  (forall instanceID details asyncAllowed,
      brokerapi.ProvisionDetails.ServiceID details = planID ->
      brokerapi.ProvisionDetails.PlanID details = serviceID ->
      Plans b !! (planID ++ "/" ++ serviceID) = None ->
      Provision GenManifest b instanceID details asyncAllowed =
        ((async_spec, Some (PlanNotFound (planID ++ "/" ++ serviceID))), b)).
Proof.
  split; [|split].
  - intros plan Hp. unfold FindPlan, Sprintf_slash. by rewrite Hp.
  - intros Hp. unfold FindPlan, Sprintf_slash. by rewrite Hp.
  - intros instanceID details asyncAllowed Hs Hq Hp.
    unfold Provision, FindPlan, Sprintf_slash. by rewrite Hs, Hq, Hp.
Qed.

(** ** Provision *)

(** C3 (as amended): when the plan is found and the director's [GetInfo]
    fails, Provision returns the ManifestGenerationFailed error, the same
    error it returns when [GenManifest] fails; nothing is deployed or
    written to the Ledger. *)
Theorem Provision_info_failure b instanceID details asyncAllowed :
  (forall plan e d1,
      FindPlan b (brokerapi.ProvisionDetails.ServiceID details)
                 (brokerapi.ProvisionDetails.PlanID details) = (plan, None) ->
      gogobosh.GetInfo (BOSH b) = (inr e, d1) ->
      Provision GenManifest b instanceID details asyncAllowed =
        ((async_spec, Some ManifestGenerationFailed), set_BOSH b d1)) /\
  (forall plan info d1 e,
      FindPlan b (brokerapi.ProvisionDetails.ServiceID details)
                 (brokerapi.ProvisionDetails.PlanID details) = (plan, None) ->
      gogobosh.GetInfo (BOSH b) = (inl info, d1) ->
      GenManifest plan (manifest_params plan instanceID info) = inr e ->
      Provision GenManifest b instanceID details asyncAllowed =
        ((async_spec, Some ManifestGenerationFailed), set_BOSH b d1)).
Proof.
  split.
  - intros plan e d1 Hplan Hinfo. unfold Provision. by rewrite Hplan, Hinfo.
  - intros plan info d1 e Hplan Hinfo Hgen. unfold Provision.
    rewrite Hplan, Hinfo. unfold manifest_params in Hgen. by rewrite Hgen.
Qed.

(** C4: a Ledger write that fails after a successful submission is an
    error for Provision (LedgerWriteFailed) and is swallowed by
    Deprovision, which still returns success. *)
Theorem Ledger_write_failure_asymmetry b instanceID :
  (forall details asyncAllowed plan info d1 manifest creds task d2 e v,
      FindPlan b (brokerapi.ProvisionDetails.ServiceID details)
                 (brokerapi.ProvisionDetails.PlanID details) = (plan, None) ->
      gogobosh.GetInfo (BOSH b) = (inl info, d1) ->
      GenManifest plan (manifest_params plan instanceID info) =
        inl (manifest, creds) ->
      gogobosh.CreateDeployment d1 manifest = (inl task, d2) ->
      Vault.Track (Vault b) instanceID "provision"
                  (gogobosh.Task.ID task) creds = (Some e, v) ->
      fst (Provision GenManifest b instanceID details asyncAllowed) =
        (async_spec, Some LedgerWriteFailed)) /\
  (forall details asyncAllowed task d1 e v,
      gogobosh.DeleteDeployment (BOSH b) instanceID = (inl task, d1) ->
      Vault.Track (Vault b) instanceID "deprovision"
                  (gogobosh.Task.ID task) None = (Some e, v) ->
      fst (Deprovision b instanceID details asyncAllowed) = (true, None)).
Proof.
  split.
  - intros details asyncAllowed plan info d1 manifest creds task d2 e v
      Hplan Hinfo Hgen Hdeploy Htrack.
    unfold Provision. rewrite Hplan, Hinfo.
    unfold manifest_params in Hgen. by rewrite Hgen, Hdeploy, Htrack.
  - intros details asyncAllowed task d1 e v Hdel Htrack.
    unfold Deprovision. by rewrite Hdel, Htrack.
Qed.

(** C9: the spec that Provision returns has [IsAsync] set on every return
    path: on success, and with each of its five errors (plan not found,
    [GetInfo] failure, manifest generation failure, deployment submission
    failure, Ledger write failure), which are the only errors it returns. *)
Theorem Provision_IsAsync b instanceID details asyncAllowed :
  let res := fst (Provision GenManifest b instanceID details asyncAllowed) in
  brokerapi.ProvisionedServiceSpec.IsAsync (fst res) = true /\
  (snd res = None \/
   snd res =
     Some (PlanNotFound (brokerapi.ProvisionDetails.ServiceID details ++ "/" ++
                         brokerapi.ProvisionDetails.PlanID details)) \/
   snd res = Some ManifestGenerationFailed \/
   snd res = Some BackendDeploymentFailed \/
   snd res = Some LedgerWriteFailed).
Proof.
  unfold Provision, FindPlan, Sprintf_slash.
  repeat case_match; simplify_eq; cbn; split; auto 6.
Qed.

(** ** Deprovision *)

(** C5: when the teardown submission fails, Deprovision returns that
    error and the Ledger is exactly what it was: no record is written. *)
Theorem Deprovision_teardown_failure b instanceID details asyncAllowed e d1 :
  gogobosh.DeleteDeployment (BOSH b) instanceID = (inr e, d1) ->
  fst (Deprovision b instanceID details asyncAllowed) = (true, Some e) /\
  Vault (snd (Deprovision b instanceID details asyncAllowed)) = Vault b.
Proof. intros Hdel. unfold Deprovision. by rewrite Hdel. Qed.

(** ** Update *)

(** C8: whatever the instanceID, the details and the asyncAllowed flag,
    Update returns the NotSupported error and the broker, its director
    and its Ledger are left as they were. *)
Theorem Update_not_supported b instanceID details asyncAllowed :
  Update b instanceID details asyncAllowed =
    ((false, Some NotSupported), b).
Proof. reflexivity. Qed.

(** ** ReadServices and FindPlan *)

Lemma elem_of_catalog_plans (ss : list Service.t) (sid : string) (p : Plan.t) :
  (sid, p) ∈ catalog_plans ss <->
  exists s, s ∈ ss /\ Service.ID s = sid /\ p ∈ Service.Plans s.
Proof.
  unfold catalog_plans. rewrite list_elem_of_bind. split.
  - intros (s & Hp & Hs). apply list_elem_of_fmap in Hp as (q & [= -> ->] & Hq).
    eauto.
  - intros (s & Hs & <- & Hp). exists s. split; [|done].
    apply list_elem_of_fmap. eauto.
Qed.

(** The nested loops are one pass over the plans in catalog order. *)
Lemma track_plans_flat (ss : list Service.t) (m : gmap string Plan.t) :
  track_plans m ss =
  foldl (fun m sp => <[Sprintf_slash sp.1 (Plan.ID sp.2) := sp.2]> m)
        m (catalog_plans ss).
Proof.
  revert m. induction ss as [|s ss IH]; intros m; [done|].
  unfold catalog_plans. cbn. rewrite foldl_app.
  unfold track_plans in IH. cbn. rewrite IH. f_equal.
  generalize (Service.Plans s) m. clear.
  intros ps. induction ps as [|p ps IHp]; intros m; [done|]. cbn. apply IHp.
Qed.

Lemma foldl_insert_lookup (l : list (string * Plan.t))
    (m : gmap string Plan.t) (k : string) (p : Plan.t) :
  foldl (fun m sp => <[Sprintf_slash sp.1 (Plan.ID sp.2) := sp.2]> m) m l
    !! k = Some p ->
  m !! k = Some p \/
  exists sid, (sid, p) ∈ l /\ Sprintf_slash sid (Plan.ID p) = k.
Proof.
  revert m. induction l as [|[sid q] l IH]; intros m; cbn; [auto|].
  intros Hk. apply IH in Hk as [Hk | (sid' & Hin & Hkey)].
  - rewrite lookup_insert in Hk. case_decide as Heq.
    + injection Hk as ->. right. exists sid. split; [left | done].
    + by left.
  - right. exists sid'. split; [by right | done].
Qed.

Lemma foldl_insert_is_Some (l : list (string * Plan.t))
    (m : gmap string Plan.t) (k : string) :
  (is_Some (m !! k) \/
   exists sid p, (sid, p) ∈ l /\ Sprintf_slash sid (Plan.ID p) = k) ->
  is_Some
    (foldl (fun m sp => <[Sprintf_slash sp.1 (Plan.ID sp.2) := sp.2]> m) m l
       !! k).
Proof.
  revert m. induction l as [|[sid q] l IH]; intros m; cbn.
  - intros [Hm | (sid & p & Hin & _)]; [done | by apply elem_of_nil in Hin].
  - intros [Hm | (sid' & p & Hin & Hkey)]; apply IH.
    + left. rewrite lookup_insert. by case_decide.
    + apply elem_of_cons in Hin as [[= -> ->] | Hin].
      * left. rewrite <- Hkey. rewrite lookup_insert_eq. by eexists.
      * right. eauto.
Qed.

(** A plan is tracked under [k] exactly when some plan of the catalog has
    the key [k]; the tracked plan is one of them. *)
Lemma track_plans_lookup (ss : list Service.t) (k : string) (p : Plan.t) :
  track_plans ∅ ss !! k = Some p ->
  exists sid, (sid, p) ∈ catalog_plans ss /\ sid ++ "/" ++ Plan.ID p = k.
Proof.
  rewrite track_plans_flat. intros Hk.
  apply foldl_insert_lookup in Hk as [Hk | Hk]; [|done].
  by rewrite lookup_empty in Hk.
Qed.

Lemma track_plans_is_Some (ss : list Service.t) (sid : string) (p : Plan.t) :
  (sid, p) ∈ catalog_plans ss ->
  is_Some (track_plans ∅ ss !! (sid ++ "/" ++ Plan.ID p)).
Proof.
  intros Hin. rewrite track_plans_flat. apply foldl_insert_is_Some.
  right. by exists sid, p.
Qed.

#[local] Arguments String.append !s1 s2 : simpl nomatch.

(** A key splits in one way at its first slash. *)
Lemma slash_key_inj (a b c d : string) :
  no_slash a = true -> no_slash c = true ->
  a ++ "/" ++ b = c ++ "/" ++ d -> a = c /\ b = d.
Proof.
  revert c. induction a as [|x a IH]; intros [|y c]; cbn.
  - by intros _ _ [= ->].
  - intros _ Hc [= <- _]. done.
  - intros Ha _ [= -> _]. done.
  - intros Ha Hc [= -> Hrest].
    apply andb_prop in Ha as [_ Ha]. apply andb_prop in Hc as [_ Hc].
    destruct (IH c Ha Hc Hrest) as [-> ->]. done.
Qed.

(** Provision reports PlanNotFound exactly when its lookup finds no plan. *)
Lemma Provision_PlanNotFound_iff b instanceID details asyncAllowed :
  snd (fst (Provision GenManifest b instanceID details asyncAllowed)) =
    Some (PlanNotFound (brokerapi.ProvisionDetails.ServiceID details ++ "/" ++
                        brokerapi.ProvisionDetails.PlanID details)) <->
  Plans b !! (brokerapi.ProvisionDetails.ServiceID details ++ "/" ++
              brokerapi.ProvisionDetails.PlanID details) = None.
Proof.
  unfold Provision, FindPlan, Sprintf_slash.
  destruct (Plans b !! _) as [plan|]; [|done].
  repeat case_match; cbn; split; intros [=].
Qed.

(** C10 (as amended): after the method [ReadServices] has loaded the
    catalog [ss], and when neither the service IDs of the catalog nor the
    queried serviceID contain a slash, the lookup that Provision makes,
    [FindPlan b details.ServiceID details.PlanID], succeeds exactly when
    the catalog contains a plan for (serviceID, planID); the plan it
    returns is a plan of the catalog with that service ID and plan ID. *)
Theorem ReadServices_FindPlan_roundtrip b b' (dir : list string)
    (ss : list Service.t) (details : brokerapi.ProvisionDetails.t) :
  ReadServices dir = inl ss ->
  Broker_ReadServices ReadServices Catalog b dir = (None, b') ->
  Forall (fun s => no_slash (Service.ID s) = true) ss ->
  no_slash (brokerapi.ProvisionDetails.ServiceID details) = true ->
  let serviceID := brokerapi.ProvisionDetails.ServiceID details in
  let planID := brokerapi.ProvisionDetails.PlanID details in
  ((exists plan, FindPlan b' serviceID planID = (plan, None)) <->
   has_plan ss serviceID planID) /\
  (forall plan,
      FindPlan b' serviceID planID = (plan, None) ->
      (serviceID, plan) ∈ catalog_plans ss /\ Plan.ID plan = planID) /\
  (forall instanceID asyncAllowed,
      snd (fst (Provision GenManifest b' instanceID details asyncAllowed)) =
        Some (PlanNotFound (serviceID ++ "/" ++ planID)) <->
      ~ has_plan ss serviceID planID).
Proof.
  intros Hread Hload Hss Hsid serviceID planID.
  assert (Hprov : forall instanceID asyncAllowed,
             snd (fst (Provision GenManifest b' instanceID details
                         asyncAllowed)) =
               Some (PlanNotFound (serviceID ++ "/" ++ planID)) <->
             FindPlan b' serviceID planID =
               (Plan.zero, Some (PlanNotFound (serviceID ++ "/" ++ planID)))).
  { intros instanceID asyncAllowed. unfold serviceID, planID.
    rewrite (Provision_PlanNotFound_iff b' instanceID details asyncAllowed).
    unfold FindPlan, Sprintf_slash. by destruct (Plans b' !! _). }
  change (no_slash serviceID = true) in Hsid. clearbody serviceID planID.
  unfold Broker_ReadServices in Hload. rewrite Hread in Hload.
  injection Hload as <-.
  assert (Hfound : forall plan,
             FindPlan
               {| Broker_Catalog := Catalog ss; Plans := track_plans ∅ ss;
                  BOSH := BOSH b; Vault := Vault b |} serviceID planID =
               (plan, None) ->
             (serviceID, plan) ∈ catalog_plans ss /\ Plan.ID plan = planID).
  { intros plan. unfold FindPlan, Sprintf_slash. cbn.
    destruct (track_plans ∅ ss !! _) as [q|] eqn:Hq; [|done].
    intros [= ->]. apply track_plans_lookup in Hq as (sid & Hin & Hkey).
    assert (Hns : no_slash sid = true).
    { apply elem_of_catalog_plans in Hin as (s & Hs & <- & _).
      by apply (proj1 (Forall_forall _ _) Hss). }
    destruct (slash_key_inj _ _ _ _ Hns Hsid Hkey) as [-> ->]. done. }
  assert (Hiff : (exists plan,
                     FindPlan
                       {| Broker_Catalog := Catalog ss;
                          Plans := track_plans ∅ ss;
                          BOSH := BOSH b; Vault := Vault b |}
                       serviceID planID = (plan, None)) <->
                 has_plan ss serviceID planID).
  { split.
    - intros [plan Hplan]. apply Hfound in Hplan as [Hin Hid].
      apply elem_of_catalog_plans in Hin as (s & Hs & Hsid' & Hp).
      by exists s, plan.
    - intros (s & p & Hs & Hp & Hsid' & Hpid).
      assert (Hin : (serviceID, p) ∈ catalog_plans ss).
      { apply elem_of_catalog_plans. by exists s. }
      apply track_plans_is_Some in Hin as [q Hq].
      exists q. unfold FindPlan, Sprintf_slash. cbn.
      cbn in Hq. by rewrite <- Hpid, Hq. }
  split; [done|split; [done|]].
  intros instanceID asyncAllowed. rewrite Hprov, <- Hiff. split.
  - intros Hnone [plan Hplan]. by rewrite Hnone in Hplan.
  - intros Hno. unfold FindPlan in *.
    destruct (Plans _ !! _) as [plan|]; [|done].
    destruct Hno. by exists plan.
Qed.

End BrokerProperties.

(** ** The broker on the fixtures *)

Section OnFixtures.

Import Fixtures.

(** C1, as stated, fails: with an empty Ledger, Bind for instance [i1]
    returns a nil error. *)
Lemma Bind_without_record_is_no_error :
  ~ (forall (b : @Broker Director) instanceID bindingID details,
        Vault.secrets (Vault b) !! instanceID = None ->
        snd (fst (Bind b instanceID bindingID details)) <> None).
Proof.
  intros Hclaim.
  apply (Hclaim (broker (director "done") (vault false)) "i1" "b1"
                bind_details); reflexivity.
Qed.

(** On the fixtures: a finished provision, a failed deprovision whose
    record is cleared, and an instance without a record. *)
Lemma LastOperation_by_kind_and_status_witness :
  fst (LastOperation (broker (director "done") (vault_with "provision" 1))
                     "i1") = (operation "succeeded", None) /\
  (fst (LastOperation (broker (director "error") (vault_with "deprovision" 2))
                      "i1") = (operation "failed", None) /\
   Vault.secrets
     (Vault (snd (LastOperation
                    (broker (director "error") (vault_with "deprovision" 2))
                    "i1"))) !! "i1" = None) /\
  LastOperation (broker (director "done") (vault false)) "i1" =
    ((brokerapi.LastOperation.zero, Some (InvalidOperationState "")),
     broker (director "done") (vault false)).
Proof.
  split; [|split].
  - pose proof
      (proj1 (LastOperation_by_kind_and_status
                (broker (director "done") (vault_with "provision" 1)) "i1"))
      as Hprov.
    specialize (Hprov {| Vault.kind := "provision"; Vault.taskID := 1;
                         Vault.credentials := creds |}
                      (task 1 "done") (director "done")
                      eq_refl eq_refl eq_refl).
    exact (proj1 (proj2 Hprov) eq_refl).
  - pose proof
      (proj1 (proj2 (LastOperation_by_kind_and_status
                (broker (director "error") (vault_with "deprovision" 2))
                "i1")))
      as Hdep.
    specialize (Hdep {| Vault.kind := "deprovision"; Vault.taskID := 2;
                        Vault.credentials := creds |}
                     (task 2 "error") (director "error")
                     eq_refl eq_refl eq_refl).
    destruct (proj1 (proj2 Hdep) eq_refl) as (Hres & _ & Hgone).
    exact (conj Hres (Hgone eq_refl)).
  - exact (proj1 (proj2 (proj2 (LastOperation_by_kind_and_status
                  (broker (director "done") (vault false)) "i1")))
                 eq_refl).
Defined.

(** C3, as stated, fails: with the director's [GetInfo] refusing the
    connection, Provision returns the ManifestGenerationFailed error. *)
Lemma Provision_info_failure_is_ManifestGenerationFailed :
  ~ (forall (b : @Broker Director) instanceID details asyncAllowed e d1,
        gogobosh.GetInfo (BOSH b) = (inr e, d1) ->
        snd (fst (Provision GenManifest b instanceID details asyncAllowed))
        <> Some ManifestGenerationFailed).
Proof.
  intros Hclaim.
  apply (Hclaim (broker director_info_down (vault false)) "i1"
                provision_details true "connection refused"
                director_info_down); reflexivity.
Qed.

(** On the fixtures: the director's info is down, and the template fails. *)
Lemma Provision_info_failure_witness :
  Provision GenManifest (broker director_info_down (vault false)) "i1"
            provision_details true =
    ((async_spec, Some ManifestGenerationFailed),
     broker director_info_down (vault false)) /\
  Provision GenManifest_failing (broker (director "queued") (vault false))
            "i1" provision_details true =
    ((async_spec, Some ManifestGenerationFailed),
     broker (director "queued") (vault false)).
Proof.
  split.
  - exact (proj1 (Provision_info_failure GenManifest
                    (broker director_info_down (vault false)) "i1"
                    provision_details true)
                 redis_plan "connection refused" director_info_down
                 eq_refl eq_refl).
  - exact (proj2 (Provision_info_failure GenManifest_failing
                    (broker (director "queued") (vault false)) "i1"
                    provision_details true)
                 redis_plan
                 {| gogobosh.Info.Name := "bosh";
                    gogobosh.Info.UUID := "uuid-1" |}
                 (director "queued") "template error"
                 eq_refl eq_refl eq_refl).
Defined.

(** On the fixtures: both flows against a Vault in an outage. *)
Lemma Ledger_write_failure_asymmetry_witness :
  fst (Provision GenManifest (broker (director "queued") (vault true)) "i1"
                 provision_details true) =
    (async_spec, Some LedgerWriteFailed) /\
  fst (Deprovision (broker (director "queued") (vault true)) "i1"
                   deprovision_details true) = (true, None).
Proof.
  split.
  - exact (proj1 (Ledger_write_failure_asymmetry GenManifest
                    (broker (director "queued") (vault true)) "i1")
                 provision_details true redis_plan
                 {| gogobosh.Info.Name := "bosh";
                    gogobosh.Info.UUID := "uuid-1" |}
                 (director "queued") "name: redis-i1" creds
                 (task 1 "queued") (director "queued")
                 "vault unavailable" (vault true)
                 eq_refl eq_refl eq_refl eq_refl eq_refl).
  - exact (proj2 (Ledger_write_failure_asymmetry GenManifest
                    (broker (director "queued") (vault true)) "i1")
                 deprovision_details true (task 2 "queued")
                 (director "queued") "vault unavailable" (vault true)
                 eq_refl eq_refl).
Defined.

(** On the fixtures: the director rejects the teardown of [i1]. *)
Lemma Deprovision_teardown_failure_witness :
  fst (Deprovision (broker director_teardown_rejected
                           (vault_with "provision" 1))
                   "i1" deprovision_details true) =
    (true, Some "connection refused") /\
  Vault (snd (Deprovision (broker director_teardown_rejected
                                  (vault_with "provision" 1))
                          "i1" deprovision_details true)) =
    vault_with "provision" 1.
Proof.
  exact (Deprovision_teardown_failure
           (broker director_teardown_rejected (vault_with "provision" 1))
           "i1" deprovision_details true "connection refused"
           director_teardown_rejected eq_refl).
Defined.

(** On the fixtures: the plan stored under [s1/p1], looked up in both
    argument orders. *)
Lemma FindPlan_key_witness :
  FindPlan (broker (director "queued") (vault false)) "s1" "p1" =
    (redis_plan, None) /\
  FindPlan (broker (director "queued") (vault false)) "p1" "s1" =
    (Plan.zero, Some (PlanNotFound "p1/s1")) /\
  Provision GenManifest (broker (director "queued") (vault false)) "i1"
            swapped_details true =
    ((async_spec, Some (PlanNotFound "p1/s1")),
     broker (director "queued") (vault false)).
Proof.
  split; [|split].
  - exact (proj1 (FindPlan_key GenManifest
                    (broker (director "queued") (vault false)) "s1" "p1")
                 redis_plan eq_refl).
  - exact (proj1 (proj2 (FindPlan_key GenManifest
                    (broker (director "queued") (vault false)) "p1" "s1"))
                 eq_refl).
  - exact (proj2 (proj2 (FindPlan_key GenManifest
                    (broker (director "queued") (vault false)) "p1" "s1"))
                 "i1" swapped_details true eq_refl eq_refl eq_refl).
Defined.

(** C10, as stated, fails: a catalog with the one service [a/b] and its
    plan [c] has no plan for the pair ([a], [b/c]), and yet the lookup of
    Provision for that pair finds the plan. *)
Lemma slash_in_ID_breaks_roundtrip :
  ~ (forall (ss : list Service.t) (b b' : @Broker Director)
            (dir : list string) (details : brokerapi.ProvisionDetails.t),
        Broker_ReadServices (fun _ => inl ss) Catalog b dir = (None, b') ->
        ((exists plan,
             FindPlan b' (brokerapi.ProvisionDetails.ServiceID details)
                         (brokerapi.ProvisionDetails.PlanID details) =
               (plan, None)) <->
         has_plan ss (brokerapi.ProvisionDetails.ServiceID details)
                     (brokerapi.ProvisionDetails.PlanID details))).
Proof.
  intros Hclaim.
  set (c := {| Plan.ID := "c"; Plan.Name := "small" |}).
  set (ss := [ {| Service.ID := "a/b"; Service.Plans := [c] |} ]).
  set (b := broker (director "queued") (vault false)).
  set (details :=
         {| brokerapi.ProvisionDetails.ServiceID := "a";
            brokerapi.ProvisionDetails.PlanID := "b/c";
            brokerapi.ProvisionDetails.OrganizationGUID := "org";
            brokerapi.ProvisionDetails.SpaceGUID := "space" |}).
  destruct (Hclaim ss b _ [] details eq_refl) as [Hfound _].
  destruct Hfound as (s & p & Hs & _ & Hid & _).
  - exists c. reflexivity.
  - apply list_elem_of_singleton in Hs as ->. discriminate Hid.
Qed.

(** On the fixtures: the catalog with service [s1] and plan [p1]. *)
Lemma ReadServices_FindPlan_roundtrip_witness :
  ((exists plan,
       FindPlan
         (snd (Broker_ReadServices ReadServices Catalog
                 (broker (director "queued") (vault false)) []))
         "s1" "p1" = (plan, None)) <->
   has_plan services "s1" "p1") /\
  (forall plan,
      FindPlan
        (snd (Broker_ReadServices ReadServices Catalog
                (broker (director "queued") (vault false)) []))
        "s1" "p1" = (plan, None) ->
      ("s1", plan) ∈ catalog_plans services /\ Plan.ID plan = "p1") /\
  (forall instanceID asyncAllowed,
      snd (fst (Provision GenManifest
                  (snd (Broker_ReadServices ReadServices Catalog
                          (broker (director "queued") (vault false)) []))
                  instanceID provision_details asyncAllowed)) =
        Some (PlanNotFound "s1/p1") <->
      ~ has_plan services "s1" "p1").
Proof.
  apply (ReadServices_FindPlan_roundtrip ReadServices Catalog GenManifest
           (broker (director "queued") (vault false)) _ []
           services provision_details eq_refl eq_refl).
  - repeat constructor.
  - reflexivity.
Defined.

End OnFixtures.

(** * Properties of the backup schedules *)

Section ScheduleProperties.

Import shield_client shield.

Context {S : Type} (C : Client S).

(** Recording the calls changes neither the result nor the state that
    [DeleteSchedule] leaves in the SHIELD core. *)
Lemma DeleteSchedule_recording (cli : NetworkClient S) instanceID details :
  let run := @DeleteSchedule _ (recording C) (with_log cli)
               instanceID details in
  fst run = fst (DeleteSchedule cli instanceID details) /\
  fst (shield (snd run)) = shield (snd (DeleteSchedule cli instanceID details)).
Proof.
  unfold DeleteSchedule. cbn.
  destruct (FindJob (shield cli) _ _ _) as [[job|e] s1]; cbn; [|done].
  destruct (DeleteTarget s1 _ _) as [[r|e] s2]; cbn; [|done].
  destruct (DeleteJob s2 _ _) as [[r'|e] s3]; cbn; done.
Qed.

(** C7 (as amended): DeleteSchedule first looks the job up by name; when
    the lookup fails (no such job), it returns the lookup's error and
    deletes nothing; when the job is found, it deletes the job's target
    first and the job second, the job only after the target was deleted
    without error. *)
Theorem DeleteSchedule_target_then_job (cli : NetworkClient S) instanceID
    details :
  let q := job_query instanceID details in
  let calls := DeleteSchedule_calls C cli instanceID details in
  (forall err s1,
      FindJob (shield cli) (tenant cli) q false = (inr err, s1) ->
      fst (DeleteSchedule cli instanceID details) = Some err /\
      calls = [CallFindJob q]) /\
  (forall job s1 err s2,
      FindJob (shield cli) (tenant cli) q false = (inl job, s1) ->
      DeleteTarget s1 (tenant cli) (Target.of_UUID (Job.Target_UUID job)) =
        (inr err, s2) ->
      fst (DeleteSchedule cli instanceID details) = Some err /\
      calls = [CallFindJob q; CallDeleteTarget (Job.Target_UUID job)]) /\
  (forall job s1 r s2,
      FindJob (shield cli) (tenant cli) q false = (inl job, s1) ->
      DeleteTarget s1 (tenant cli) (Target.of_UUID (Job.Target_UUID job)) =
        (inl r, s2) ->
      fst (DeleteSchedule cli instanceID details) =
        match fst (DeleteJob s2 (tenant cli) (Job.of_UUID (Job.UUID job))) with
        | inl _ => None
        | inr err => Some err
        end /\
      calls = [CallFindJob q; CallDeleteTarget (Job.Target_UUID job);
               CallDeleteJob (Job.UUID job)]).
Proof.
  unfold DeleteSchedule_calls, DeleteSchedule, job_query. cbn.
  split; [|split].
  - intros err s1 Hfind. by rewrite Hfind.
  - intros job s1 err s2 Hfind Hdel. rewrite Hfind. cbn. by rewrite Hdel.
  - intros job s1 r s2 Hfind Hdel. rewrite Hfind. cbn. rewrite Hdel. cbn.
    by destruct (DeleteJob s2 _ _) as [[r'|e] s3].
Qed.

End ScheduleProperties.

Section ScheduleOnFixtures.

Import shield_client shield Fixtures.

(** C7, as stated, fails: for a schedule that exists, the target is
    deleted before the job; and when no job has the name, DeleteSchedule
    returns the lookup's error. *)
Lemma DeleteSchedule_deletes_target_first :
  DeleteSchedule_calls Shield_Client (network_client scheduled_shield) "i1"
                       deprovision_details =
    [CallFindJob "name=jobs:s1:p1:i1";
     CallDeleteTarget "uuid-of-targets:s1:p1:i1";
     CallDeleteJob "uuid-of-jobs:s1:p1:i1"] /\
  fst (DeleteSchedule (network_client empty_shield) "i1"
                      deprovision_details) =
    Some "no matching job found".
Proof. split; reflexivity. Qed.

(** On the in-memory SHIELD: without and with the schedule of [i1]. *)
Lemma DeleteSchedule_target_then_job_witness :
  (fst (DeleteSchedule (network_client empty_shield) "i1"
                       deprovision_details) = Some "no matching job found" /\
   DeleteSchedule_calls Shield_Client (network_client empty_shield) "i1"
                        deprovision_details =
     [CallFindJob "name=jobs:s1:p1:i1"]) /\
  (fst (DeleteSchedule (network_client scheduled_shield) "i1"
                       deprovision_details) = None /\
   DeleteSchedule_calls Shield_Client (network_client scheduled_shield) "i1"
                        deprovision_details =
     [CallFindJob "name=jobs:s1:p1:i1";
      CallDeleteTarget "uuid-of-targets:s1:p1:i1";
      CallDeleteJob "uuid-of-jobs:s1:p1:i1"]).
Proof.
  split.
  - exact (proj1 (DeleteSchedule_target_then_job Shield_Client
                    (network_client empty_shield) "i1" deprovision_details)
                 "no matching job found" empty_shield eq_refl).
  - pose proof
      (proj2 (proj2 (DeleteSchedule_target_then_job Shield_Client
                       (network_client scheduled_shield) "i1"
                       deprovision_details))) as Hfound.
    destruct (FindJob scheduled_shield
                {| Tenant.UUID := "tenant-1" |}
                "name=jobs:s1:p1:i1" false) as [[job|e] s1] eqn:Hfind;
      [|discriminate Hfind].
    injection Hfind as <- <-.
    exact (Hfound _ _ _ _ eq_refl eq_refl).
Defined.

End ScheduleOnFixtures.

(** * More on the lifecycle operations *)

Section LifecycleProperties.

Context {D : Type} (C : gogobosh.Client D).
Variable GenManifest :
  Plan.t -> gmap string string -> (string * interface) + string.

Implicit Types (b : @Broker D) (instanceID bindingID : string).

(** ** Helper facts *)

Lemma Track_up (v : Vault.t) (instanceID typ : string) (task : Z)
    (creds : interface) :
  Vault.outage v = false ->
  Vault.Track v instanceID typ task creds =
    (None,
     {| Vault.secrets :=
          <[instanceID := {| Vault.kind := typ; Vault.taskID := task;
                             Vault.credentials := creds |}]>
            (Vault.secrets v);
        Vault.outage := false |}).
Proof. intros Hup. unfold Vault.Track. by rewrite Hup. Qed.

Lemma Track_result (v v' : Vault.t) (instanceID typ : string) (task : Z)
    (creds : interface) (e : error) :
  Vault.Track v instanceID typ task creds = (e, v') ->
  (e = None /\ Vault.outage v = false) \/ (e <> None /\ v' = v).
Proof.
  unfold Vault.Track. destruct (Vault.outage v); intros [= <- <-]; auto.
Qed.

(** A successful Provision went through all five steps. *)
Lemma Provision_success_inv b instanceID details asyncAllowed spec b' :
  Provision GenManifest b instanceID details asyncAllowed =
    ((spec, None), b') ->
  exists plan info d1 manifest creds task d2,
    FindPlan b (brokerapi.ProvisionDetails.ServiceID details)
               (brokerapi.ProvisionDetails.PlanID details) = (plan, None) /\
    gogobosh.GetInfo (BOSH b) = (inl info, d1) /\
    GenManifest plan (manifest_params plan instanceID info) =
      inl (manifest, creds) /\
    gogobosh.CreateDeployment d1 manifest = (inl task, d2) /\
    Vault.outage (Vault b) = false /\
    b' = set_Vault (set_BOSH b d2)
           {| Vault.secrets :=
                <[instanceID :=
                    {| Vault.kind := "provision";
                       Vault.taskID := gogobosh.Task.ID task;
                       Vault.credentials := creds |}]>
                  (Vault.secrets (Vault b));
              Vault.outage := false |}.
Proof.
  unfold Provision, manifest_params.
  destruct (FindPlan b _ _) as [plan [e|]]; [intros [=]|].
  destruct (gogobosh.GetInfo (BOSH b)) as [[info|e] d1]; [|intros [=]].
  destruct (GenManifest plan _) as [[manifest creds]|e] eqn:Hgen;
    [|intros [=]].
  destruct (gogobosh.CreateDeployment d1 manifest) as [[task|e] d2] eqn:Hdep;
    [|intros [=]].
  destruct (Vault.outage (Vault b)) eqn:Hup.
  - unfold Vault.Track. rewrite Hup. intros [=].
  - rewrite (Track_up _ _ _ _ _ Hup). intros [= <- <-].
    by exists plan, info, d1, manifest, creds, task, d2.
Qed.

(** ** Provision *)

(** X1: when every step of Provision succeeds and the Vault takes the
    write, Provision returns the asynchronous spec without error and the
    Ledger is the old Ledger with one record put under the instanceID:
    kind [provision], the ID of the task that [CreateDeployment] returned,
    and the credentials that [GenManifest] produced. *)
Theorem Provision_success_records_task b instanceID details asyncAllowed
    plan info d1 manifest creds task d2 :
  FindPlan b (brokerapi.ProvisionDetails.ServiceID details)
             (brokerapi.ProvisionDetails.PlanID details) = (plan, None) ->
  gogobosh.GetInfo (BOSH b) = (inl info, d1) ->
  GenManifest plan (manifest_params plan instanceID info) =
    inl (manifest, creds) ->
  gogobosh.CreateDeployment d1 manifest = (inl task, d2) ->
  Vault.outage (Vault b) = false ->
  let res := Provision GenManifest b instanceID details asyncAllowed in
  fst res = (async_spec, None) /\
  BOSH (snd res) = d2 /\
  Vault.secrets (Vault (snd res)) =
    <[instanceID := {| Vault.kind := "provision";
                       Vault.taskID := gogobosh.Task.ID task;
                       Vault.credentials := creds |}]>
      (Vault.secrets (Vault b)).
Proof.
  intros Hplan Hinfo Hgen Hdep Hup. unfold Provision.
  rewrite Hplan, Hinfo. unfold manifest_params in Hgen.
  rewrite Hgen, Hdep, (Track_up _ _ _ _ _ Hup). done.
Qed.

(** X2: a Provision that returns an error, whichever of its five errors,
    leaves the Ledger exactly as it was. *)
Theorem Provision_error_keeps_ledger b instanceID details asyncAllowed :
  snd (fst (Provision GenManifest b instanceID details asyncAllowed))
    <> None ->
  Vault (snd (Provision GenManifest b instanceID details asyncAllowed)) =
    Vault b.
Proof.
  unfold Provision.
  destruct (FindPlan b _ _) as [plan [e|]]; [done|].
  destruct (gogobosh.GetInfo (BOSH b)) as [[info|e] d1]; [|done].
  destruct (GenManifest plan _) as [[manifest creds]|e]; [|done].
  destruct (gogobosh.CreateDeployment d1 manifest) as [[task|e] d2]; [|done].
  destruct (Vault.Track _ _ _ _ _) as [[e|] v] eqn:Htrack; [|done].
  intros _. cbn. by apply Track_result in Htrack as [[[=] _]|[_ ->]].
Qed.

(** X3: the director calls of one Provision are: none when the plan is
    not found; [GetInfo] alone when the info or the manifest fails; and
    otherwise [GetInfo] followed by one [CreateDeployment]. Provision
    never deletes a deployment and never polls a task. *)
Theorem Provision_director_calls b instanceID details asyncAllowed :
  let err := snd (fst (Provision GenManifest b instanceID details
                         asyncAllowed)) in
  let calls := Provision_calls C GenManifest b instanceID details
                 asyncAllowed in
  (calls = [] /\
   err = Some (PlanNotFound
                 (brokerapi.ProvisionDetails.ServiceID details ++ "/" ++
                  brokerapi.ProvisionDetails.PlanID details))) \/
  (calls = [CallGetInfo] /\ err = Some ManifestGenerationFailed) \/
  (exists manifest,
      calls = [CallGetInfo; CallCreateDeployment manifest] /\
      (err = Some BackendDeploymentFailed \/ err = Some LedgerWriteFailed \/
       err = None)).
Proof.
  unfold Provision_calls, Provision, FindPlan, Sprintf_slash. cbn.
  destruct (Plans b !! _) as [plan|]; [|by left].
  destruct (gogobosh.GetInfo (BOSH b)) as [[info|e] d1]; cbn;
    [|by right; left].
  destruct (GenManifest plan _) as [[manifest creds]|e]; cbn;
    [|by right; left].
  right; right. exists manifest.
  destruct (gogobosh.CreateDeployment d1 manifest) as [[task|e] d2]; cbn;
    [|auto].
  destruct (Vault.Track _ _ _ _ _) as [[e|] v]; cbn; auto.
Qed.

(** X4: after a successful Provision, Bind on the same instanceID returns
    the credentials that [GenManifest] produced during that Provision. *)
Theorem Provision_then_Bind b instanceID details asyncAllowed spec b'
    bindingID bind_details :
  Provision GenManifest b instanceID details asyncAllowed =
    ((spec, None), b') ->
  exists plan info d1 manifest creds,
    FindPlan b (brokerapi.ProvisionDetails.ServiceID details)
               (brokerapi.ProvisionDetails.PlanID details) = (plan, None) /\
    gogobosh.GetInfo (BOSH b) = (inl info, d1) /\
    GenManifest plan (manifest_params plan instanceID info) =
      inl (manifest, creds) /\
    Bind b' instanceID bindingID bind_details =
      (({| brokerapi.Binding.Credentials := creds;
           brokerapi.Binding.SyslogDrainURL := "" |}, None), b').
Proof.
  intros Hprov.
  apply Provision_success_inv in Hprov
    as (plan & info & d1 & manifest & creds & task & d2 &
        Hplan & Hinfo & Hgen & Hdep & Hup & ->).
  exists plan, info, d1, manifest, creds. repeat split; try done.
  unfold Bind, Vault.State. cbn. by rewrite lookup_insert_eq.
Qed.

(** X5: after a successful Provision, LastOperation on the same
    instanceID polls the task that [CreateDeployment] returned, and reports
    succeeded, failed or in progress from that task's state, without
    touching the Ledger. *)
Theorem Provision_then_LastOperation b instanceID details asyncAllowed
    spec b' :
  Provision GenManifest b instanceID details asyncAllowed =
    ((spec, None), b') ->
  exists d1 manifest task,
    gogobosh.CreateDeployment d1 manifest = (inl task, BOSH b') /\
    LastOperation_calls C b' instanceID =
      [CallGetTask (gogobosh.Task.ID task)] /\
    forall polled d3,
      gogobosh.GetTask (BOSH b') (gogobosh.Task.ID task) =
        (inl polled, d3) ->
      LastOperation b' instanceID =
        ((operation (reported_state (gogobosh.Task.State polled)), None),
         set_BOSH b' d3).
Proof.
  intros Hprov.
  apply Provision_success_inv in Hprov
    as (plan & info & d1 & manifest & creds & task & d2 &
        Hplan & Hinfo & Hgen & Hdep & Hup & ->).
  exists d1, manifest, task. split; [done|]. split.
  - unfold LastOperation_calls, LastOperation, Vault.State. cbn.
    rewrite lookup_insert_eq. cbn.
    destruct (gogobosh.GetTask d2 _) as [[polled|e] d3]; cbn; [|done].
    by repeat case_match.
  - intros polled d3 Hpoll. cbn in Hpoll.
    unfold LastOperation, Vault.State. cbn. rewrite lookup_insert_eq. cbn.
    rewrite Hpoll. unfold reported_state, operation.
    by repeat case_match.
Qed.

(** ** Deprovision *)

(** X6: when the teardown is submitted and the Vault takes the write,
    Deprovision returns success and puts under the instanceID a record of
    kind [deprovision] with the teardown task's ID and nil credentials,
    replacing whatever record was there; a Bind that follows gets nil
    credentials. *)
Theorem Deprovision_success_overwrites_record b instanceID details
    asyncAllowed task d1 bindingID bind_details :
  gogobosh.DeleteDeployment (BOSH b) instanceID = (inl task, d1) ->
  Vault.outage (Vault b) = false ->
  let res := Deprovision b instanceID details asyncAllowed in
  fst res = (true, None) /\
  BOSH (snd res) = d1 /\
  Vault.secrets (Vault (snd res)) =
    <[instanceID := {| Vault.kind := "deprovision";
                       Vault.taskID := gogobosh.Task.ID task;
                       Vault.credentials := None |}]>
      (Vault.secrets (Vault b)) /\
  fst (Bind (snd res) instanceID bindingID bind_details) =
    (brokerapi.Binding.zero, None).
Proof.
  intros Hdel Hup. unfold Deprovision.
  rewrite Hdel, (Track_up _ _ _ _ _ Hup). cbn. repeat split.
  unfold Bind, Vault.State. cbn. by rewrite lookup_insert_eq.
Qed.

(** X7: Deprovision makes exactly one director call, the deletion of the
    deployment named by the instanceID, whatever the Ledger holds for the
    instance; it asks the director for nothing else. *)
Theorem Deprovision_director_calls b instanceID details asyncAllowed :
  Deprovision_calls C b instanceID details asyncAllowed =
    [CallDeleteDeployment instanceID].
Proof.
  unfold Deprovision_calls, Deprovision. cbn.
  destruct (gogobosh.DeleteDeployment (BOSH b) instanceID) as [[task|e] d1];
    cbn; [|done].
  by destruct (Vault.Track _ _ _ _ _).
Qed.

(** X8: Deprovision followed by a poll that finds the teardown task done
    or in error: LastOperation reports succeeded or failed, the record of
    the instance is gone from the Ledger, and the next LastOperation for
    the instance returns the InvalidOperationState error. *)
Theorem Deprovision_then_LastOperation b instanceID details asyncAllowed
    task d1 polled d2 :
  gogobosh.DeleteDeployment (BOSH b) instanceID = (inl task, d1) ->
  Vault.outage (Vault b) = false ->
  gogobosh.GetTask d1 (gogobosh.Task.ID task) = (inl polled, d2) ->
  gogobosh.Task.State polled = "done" \/
  gogobosh.Task.State polled = "error" ->
  let polling :=
    LastOperation (snd (Deprovision b instanceID details asyncAllowed))
                  instanceID in
  fst polling =
    (operation (reported_state (gogobosh.Task.State polled)), None) /\
  Vault.secrets (Vault (snd polling)) =
    delete instanceID (Vault.secrets (Vault b)) /\
  LastOperation (snd polling) instanceID =
    ((brokerapi.LastOperation.zero, Some (InvalidOperationState "")),
     snd polling).
Proof.
  intros Hdel Hup Hpoll Hstate polling. subst polling.
  unfold Deprovision. rewrite Hdel, (Track_up _ _ _ _ _ Hup). cbn [snd].
  set (b1 := set_Vault _ _).
  assert (Hp : LastOperation b1 instanceID =
               ((operation (reported_state (gogobosh.Task.State polled)),
                 None),
                set_Vault (set_BOSH b1 d2)
                          (Vault.Clear (Vault b1) instanceID))).
  { unfold LastOperation, Vault.State. subst b1. cbn.
    rewrite lookup_insert_eq. cbn. rewrite Hpoll.
    by destruct Hstate as [-> | ->]. }
  rewrite Hp. cbn [fst snd]. split; [done|].
  subst b1. unfold Vault.Clear. cbn. rewrite delete_insert_eq.
  split; [done|].
  unfold LastOperation, Vault.State. cbn. by rewrite lookup_delete_eq.
Qed.

(** ** LastOperation *)

(** X9: when the instance has a [provision] or [deprovision] record and
    the director cannot return its task, LastOperation returns the
    UnrecognizedTask error, whatever the director's own error was, and the
    Ledger keeps the record. *)
Theorem LastOperation_task_lookup_failure b instanceID r e d1 :
  Vault.secrets (Vault b) !! instanceID = Some r ->
  Vault.kind r = "provision" \/ Vault.kind r = "deprovision" ->
  gogobosh.GetTask (BOSH b) (Vault.taskID r) = (inr e, d1) ->
  LastOperation b instanceID =
    ((brokerapi.LastOperation.zero, Some UnrecognizedTask), set_BOSH b d1).
Proof.
  intros Hr Hkind Hpoll. unfold LastOperation, Vault.State. rewrite Hr.
  destruct Hkind as [-> | ->]; cbn; by rewrite Hpoll.
Qed.

(** X10: LastOperation never writes a record: after it the Ledger holds
    either exactly the records it held before, or those records without
    the one of the polled instance. *)
Theorem LastOperation_ledger_frame b instanceID :
  let after := Vault.secrets (Vault (snd (LastOperation b instanceID))) in
  after = Vault.secrets (Vault b) \/
  after = delete instanceID (Vault.secrets (Vault b)).
Proof.
  unfold LastOperation, Vault.State, Vault.Clear.
  destruct (Vault.secrets (Vault b) !! instanceID) as [r|]; [|by left].
  destruct (gogobosh.GetTask (BOSH b) (Vault.taskID r)) as [[polled|e] d1];
    repeat case_match; cbn; auto.
Qed.

(** X11: LastOperation makes at most one director call, a poll of the
    task recorded for the instance; it makes none when the instance has no
    record, and it never submits a deployment or a teardown. *)
Theorem LastOperation_director_calls b instanceID :
  match Vault.secrets (Vault b) !! instanceID with
  | None => LastOperation_calls C b instanceID = []
  | Some r =>
      LastOperation_calls C b instanceID = [] \/
      LastOperation_calls C b instanceID = [CallGetTask (Vault.taskID r)]
  end.
Proof.
  unfold LastOperation_calls, LastOperation, Vault.State. cbn.
  destruct (Vault.secrets (Vault b) !! instanceID) as [r|]; [|done].
  destruct (gogobosh.GetTask (BOSH b) (Vault.taskID r)) as [[polled|e] d1];
    repeat case_match; cbn; auto.
Qed.

End LifecycleProperties.

(** * More on the plan catalog *)

Section CatalogProperties.

Context {D : Type} `{!gogobosh.Client D}.
Variable ReadServices : list string -> list Service.t + string.
Variable Catalog : list Service.t -> list brokerapi.Service.t.

Implicit Types (b : @Broker D).

Lemma foldl_insert_other (l : list (string * Plan.t))
    (m : gmap string Plan.t) (k : string) :
  Forall (fun sp => plan_key sp <> k) l ->
  foldl (fun m sp => <[Sprintf_slash sp.1 (Plan.ID sp.2) := sp.2]> m) m l
    !! k = m !! k.
Proof.
  intros Hl. revert m. induction Hl as [|sp l Hsp _ IH]; intros m; [done|].
  cbn. rewrite IH. by apply lookup_insert_ne.
Qed.

(** X12: the method [ReadServices] either fails with the error of the
    package function and leaves the broker as it was, or replaces the
    catalog and the plan table: the served catalog is [Catalog ss], every
    key of the new table is the [serviceID/planID] of a plan just read (no
    plan of an earlier load survives), and the director and the Vault are
    untouched. *)
Theorem Broker_ReadServices_replaces_plans b (dir : list string) :
  (forall e,
      ReadServices dir = inr e ->
      Broker_ReadServices ReadServices Catalog b dir = (Some e, b)) /\
  (forall ss,
      ReadServices dir = inl ss ->
      let res := Broker_ReadServices ReadServices Catalog b dir in
      fst res = None /\
      Services (snd res) = Catalog ss /\
      BOSH (snd res) = BOSH b /\
      Vault (snd res) = Vault b /\
      forall k p,
        Plans (snd res) !! k = Some p ->
        exists sid, (sid, p) ∈ catalog_plans ss /\
                    k = sid ++ "/" ++ Plan.ID p).
Proof.
  split.
  - intros e He. unfold Broker_ReadServices. by rewrite He.
  - intros ss Hss. unfold Broker_ReadServices. rewrite Hss. cbn.
    repeat split. intros k p Hk.
    apply track_plans_lookup in Hk as (sid & Hin & <-). by exists sid.
Qed.

(** X13: when several plans of the catalog have the same
    [serviceID/planID] key, the one that comes last in catalog order is
    the one tracked: after loading, [FindPlan] with a plan's service ID
    and plan ID returns that plan, provided no later plan has its key. *)
Theorem FindPlan_last_plan_wins b (dir : list string) (ss : list Service.t)
    (l1 l2 : list (string * Plan.t)) (sid : string) (p : Plan.t) :
  ReadServices dir = inl ss ->
  catalog_plans ss = (l1 ++ (sid, p) :: l2)%list ->
  Forall (fun sp => plan_key sp <> plan_key (sid, p)) l2 ->
  FindPlan (snd (Broker_ReadServices ReadServices Catalog b dir))
           sid (Plan.ID p) = (p, None).
Proof.
  intros Hss Hcat Hlater. unfold Broker_ReadServices. rewrite Hss.
  unfold FindPlan. cbn [snd Plans].
  rewrite track_plans_flat, Hcat, foldl_app. cbn [foldl].
  rewrite (foldl_insert_other _ _ _ Hlater).
  unfold plan_key. cbn [fst snd]. by rewrite lookup_insert_eq.
Qed.

End CatalogProperties.

(** * More on the backup schedules *)

Section MoreScheduleProperties.

Import shield_client shield.

Context {S : Type} (C : Client S).

#[local] Arguments String.append !s1 s2 : simpl nomatch.

(** A name splits in one way at its first colon. *)
Lemma colon_name_inj (a b c d : string) :
  no_colon a = true -> no_colon c = true ->
  a ++ ":" ++ b = c ++ ":" ++ d -> a = c /\ b = d.
Proof.
  revert c. induction a as [|x a IH]; intros [|y c]; cbn.
  - by intros _ _ [= ->].
  - intros _ Hc [= <- _]. done.
  - intros Ha _ [= -> _]. done.
  - intros Ha Hc [= -> Hrest].
    apply andb_prop in Ha as [_ Ha]. apply andb_prop in Hc as [_ Hc].
    destruct (IH c Ha Hc Hrest) as [-> ->]. done.
Qed.

Lemma DeleteSchedule_calls_head (cli : NetworkClient S) instanceID details :
  head (DeleteSchedule_calls C cli instanceID details) =
    Some (CallFindJob (job_query instanceID details)).
Proof.
  unfold DeleteSchedule_calls, DeleteSchedule, job_query. cbn.
  destruct (FindJob (shield cli) _ _ _) as [[job|e] s1]; cbn; [|done].
  destruct (DeleteTarget s1 _ _) as [[r|e] s2]; cbn; [|done].
  by destruct (DeleteJob s2 _ _) as [[r'|e] s3].
Qed.

Lemma CreateSchedule_calls_cases (cli : NetworkClient S) instanceID details :
  let tname :=
    join ["targets"; brokerapi.ProvisionDetails.ServiceID details;
          brokerapi.ProvisionDetails.PlanID details; instanceID] in
  let jname :=
    join ["jobs"; brokerapi.ProvisionDetails.ServiceID details;
          brokerapi.ProvisionDetails.PlanID details; instanceID] in
  (CreateSchedule_calls C cli instanceID details = [CallCreateTarget tname] /\
   fst (CreateSchedule cli instanceID details) <> None) \/
  CreateSchedule_calls C cli instanceID details =
    [CallCreateTarget tname; CallCreateJob jname].
Proof.
  unfold CreateSchedule_calls, CreateSchedule. cbn.
  destruct (CreateTarget (shield cli) _ _) as [[target|e] s1]; cbn;
    [|by left].
  right. by destruct (CreateJob s1 _ _) as [[job|e] s2].
Qed.


(** X15: DeleteSchedule looks the job up under the very name that
    CreateSchedule gave it: for the same service, plan and instance, the
    first call of DeleteSchedule is the lookup of ["name="] followed by the
    name of the job that CreateSchedule created. *)
Theorem schedule_name_round_trip (cli cli' : NetworkClient S) instanceID
    (details : brokerapi.ProvisionDetails.t)
    (details' : brokerapi.DeprovisionDetails.t) (name : string) :
  brokerapi.DeprovisionDetails.ServiceID details' =
    brokerapi.ProvisionDetails.ServiceID details ->
  brokerapi.DeprovisionDetails.PlanID details' =
    brokerapi.ProvisionDetails.PlanID details ->
  CallCreateJob name ∈ CreateSchedule_calls C cli instanceID details ->
  head (DeleteSchedule_calls C cli' instanceID details') =
    Some (CallFindJob ("name=" ++ name)).
Proof.
  intros Hs Hp Hin. rewrite DeleteSchedule_calls_head.
  unfold job_query. rewrite Hs, Hp.
  destruct (CreateSchedule_calls_cases cli instanceID details)
    as [[Hcalls _] | Hcalls]; rewrite Hcalls in Hin.
  - apply list_elem_of_singleton in Hin. discriminate Hin.
  - apply elem_of_cons in Hin as [Hin | Hin]; [discriminate Hin|].
    apply list_elem_of_singleton in Hin. by injection Hin as ->.
Qed.

(** X16: when service IDs and plan IDs hold no colon, the job name that
    DeleteSchedule looks up determines the service, the plan and the
    instance: two schedules with different IDs never share a job name. *)
Theorem job_query_injective (instanceID instanceID' : string)
    (details details' : brokerapi.DeprovisionDetails.t) :
  no_colon (brokerapi.DeprovisionDetails.ServiceID details) = true ->
  no_colon (brokerapi.DeprovisionDetails.PlanID details) = true ->
  no_colon (brokerapi.DeprovisionDetails.ServiceID details') = true ->
  no_colon (brokerapi.DeprovisionDetails.PlanID details') = true ->
  job_query instanceID details = job_query instanceID' details' ->
  brokerapi.DeprovisionDetails.ServiceID details =
    brokerapi.DeprovisionDetails.ServiceID details' /\
  brokerapi.DeprovisionDetails.PlanID details =
    brokerapi.DeprovisionDetails.PlanID details' /\
  instanceID = instanceID'.
Proof.
  intros Hs Hp Hs' Hp'. unfold job_query, join. cbn. intros [= Hq].
  apply (colon_name_inj _ _ _ _ Hs Hs') in Hq as [Hsid Hq].
  apply (colon_name_inj _ _ _ _ Hp Hp') in Hq as [Hpid Hi].
  done.
Qed.

End MoreScheduleProperties.

(** * The further properties on the fixtures *)

Section MoreOnFixtures.

Import Fixtures.

(** On the fixtures: instance [i1] is provisioned against a director
    that accepts the deployment as task 1. *)
Lemma Provision_success_records_task_witness :
  fst (Provision GenManifest (broker (director "queued") (vault false))
                 "i1" provision_details true) = (async_spec, None) /\
  BOSH (snd (Provision GenManifest (broker (director "queued") (vault false))
                       "i1" provision_details true)) = director "queued" /\
  Vault.secrets
    (Vault (snd (Provision GenManifest
                   (broker (director "queued") (vault false))
                   "i1" provision_details true))) =
    <["i1" := {| Vault.kind := "provision"; Vault.taskID := 1;
                 Vault.credentials := creds |}]> ∅.
Proof.
  exact (Provision_success_records_task Director_Client GenManifest
           (broker (director "queued") (vault false)) "i1"
           provision_details true redis_plan
           {| gogobosh.Info.Name := "bosh"; gogobosh.Info.UUID := "uuid-1" |}
           (director "queued") "name: redis-i1" creds (task 1 "queued")
           (director "queued") eq_refl eq_refl eq_refl eq_refl eq_refl).
Defined.

(** On the fixtures: the Vault is in an outage, Provision fails. *)
Lemma Provision_error_keeps_ledger_witness :
  Vault (snd (Provision GenManifest (broker (director "queued") (vault true))
                        "i1" provision_details true)) = vault true.
Proof.
  apply (Provision_error_keeps_ledger Director_Client GenManifest
           (broker (director "queued") (vault true)) "i1"
           provision_details true).
  vm_compute. discriminate.
Defined.

(** On the fixtures: Bind after the Provision of [i1]. *)
Lemma Provision_then_Bind_witness :
  exists plan info d1 manifest creds,
    FindPlan (broker (director "queued") (vault false))
             (brokerapi.ProvisionDetails.ServiceID provision_details)
             (brokerapi.ProvisionDetails.PlanID provision_details) =
      (plan, None) /\
    gogobosh.GetInfo (BOSH (broker (director "queued") (vault false))) =
      (inl info, d1) /\
    GenManifest plan (manifest_params plan "i1" info) =
      inl (manifest, creds) /\
    Bind (snd (Provision GenManifest
                 (broker (director "queued") (vault false))
                 "i1" provision_details true))
         "i1" "b1" bind_details =
      (({| brokerapi.Binding.Credentials := creds;
           brokerapi.Binding.SyslogDrainURL := "" |}, None),
       snd (Provision GenManifest
              (broker (director "queued") (vault false))
              "i1" provision_details true)).
Proof.
  exact (Provision_then_Bind Director_Client GenManifest
           (broker (director "queued") (vault false)) "i1"
           provision_details true async_spec _ "b1" bind_details eq_refl).
Defined.

(** On the fixtures: the poll after the Provision of [i1] finds task 1
    done. *)
Lemma Provision_then_LastOperation_witness :
  fst (LastOperation
         (snd (Provision GenManifest (broker (director "done") (vault false))
                         "i1" provision_details true)) "i1") =
    (operation "succeeded", None).
Proof.
  destruct (Provision_then_LastOperation Director_Client GenManifest
              (broker (director "done") (vault false)) "i1"
              provision_details true async_spec _ eq_refl)
    as (d1 & manifest & t & Hdep & _ & Hpoll).
  change (gogobosh.CreateDeployment d1 manifest) with (deploy d1, d1)
    in Hdep.
  injection Hdep as Ht ->. vm_compute in Ht. injection Ht as <-.
  exact (f_equal fst (Hpoll (task 1 "done") (director "done") eq_refl)).
Defined.

(** On the fixtures: [i1] had a provision record and is deprovisioned. *)
Lemma Deprovision_success_overwrites_record_witness :
  fst (Deprovision (broker (director "queued") (vault_with "provision" 1))
                   "i1" deprovision_details true) = (true, None) /\
  BOSH (snd (Deprovision
               (broker (director "queued") (vault_with "provision" 1))
               "i1" deprovision_details true)) = director "queued" /\
  Vault.secrets
    (Vault (snd (Deprovision
                   (broker (director "queued") (vault_with "provision" 1))
                   "i1" deprovision_details true))) =
    <["i1" := {| Vault.kind := "deprovision"; Vault.taskID := 2;
                 Vault.credentials := None |}]>
      (Vault.secrets (vault_with "provision" 1)) /\
  fst (Bind (snd (Deprovision
                    (broker (director "queued") (vault_with "provision" 1))
                    "i1" deprovision_details true))
            "i1" "b1" bind_details) = (brokerapi.Binding.zero, None).
Proof.
  exact (Deprovision_success_overwrites_record Director_Client
           (broker (director "queued") (vault_with "provision" 1)) "i1"
           deprovision_details true (task 2 "queued") (director "queued")
           "b1" bind_details eq_refl eq_refl).
Defined.

(** On the fixtures: the teardown of [i1] is polled and found in error. *)
Lemma Deprovision_then_LastOperation_witness :
  fst (LastOperation
         (snd (Deprovision
                 (broker (director "error") (vault_with "provision" 1))
                 "i1" deprovision_details true)) "i1") =
    (operation "failed", None) /\
  Vault.secrets
    (Vault (snd (LastOperation
                   (snd (Deprovision
                           (broker (director "error")
                                   (vault_with "provision" 1))
                           "i1" deprovision_details true)) "i1"))) =
    delete "i1" (Vault.secrets (vault_with "provision" 1)) /\
  LastOperation
    (snd (LastOperation
            (snd (Deprovision
                    (broker (director "error") (vault_with "provision" 1))
                    "i1" deprovision_details true)) "i1")) "i1" =
    ((brokerapi.LastOperation.zero, Some (InvalidOperationState "")),
     snd (LastOperation
            (snd (Deprovision
                    (broker (director "error") (vault_with "provision" 1))
                    "i1" deprovision_details true)) "i1")).
Proof.
  exact (Deprovision_then_LastOperation Director_Client
           (broker (director "error") (vault_with "provision" 1)) "i1"
           deprovision_details true (task 2 "queued") (director "error")
           (task 2 "error") (director "error")
           eq_refl eq_refl eq_refl (or_intror eq_refl)).
Defined.

(** On the fixtures: the director does not know the recorded task. *)
Lemma LastOperation_task_lookup_failure_witness :
  LastOperation (broker director_info_down (vault_with "deprovision" 2))
                "i1" =
    ((brokerapi.LastOperation.zero, Some UnrecognizedTask),
     set_BOSH (broker director_info_down (vault_with "deprovision" 2))
              director_info_down).
Proof.
  exact (LastOperation_task_lookup_failure Director_Client
           (broker director_info_down (vault_with "deprovision" 2)) "i1"
           {| Vault.kind := "deprovision"; Vault.taskID := 2;
              Vault.credentials := creds |}
           "task not found" director_info_down
           eq_refl (or_intror eq_refl) eq_refl).
Defined.

(** On the fixtures: a load that fails, and a load of the one service. *)
Lemma Broker_ReadServices_replaces_plans_witness :
  Broker_ReadServices (fun _ => inr "no such directory") Catalog
                      (broker (director "queued") (vault false)) [] =
    (Some "no such directory", broker (director "queued") (vault false)) /\
  Services (snd (Broker_ReadServices ReadServices Catalog
                   (broker (director "queued") (vault false)) [])) =
    Catalog services.
Proof.
  split.
  - exact (proj1 (Broker_ReadServices_replaces_plans
                    (fun _ => inr "no such directory") Catalog
                    (broker (director "queued") (vault false)) [])
                 "no such directory" eq_refl).
  - exact (proj1 (proj2 (proj2 (Broker_ReadServices_replaces_plans
                    ReadServices Catalog
                    (broker (director "queued") (vault false)) [])
                 services eq_refl))).
Defined.

(** On the fixtures: a service that lists two plans with the ID [p1]. *)
Lemma FindPlan_last_plan_wins_witness :
  FindPlan
    (snd (Broker_ReadServices
            (fun _ =>
               inl [ {| Service.ID := "s1";
                        Service.Plans :=
                          [ {| Plan.ID := "p1"; Plan.Name := "old" |};
                            {| Plan.ID := "p1"; Plan.Name := "new" |} ] |} ])
            Catalog (broker (director "queued") (vault false)) []))
    "s1" "p1" = ({| Plan.ID := "p1"; Plan.Name := "new" |}, None).
Proof.
  exact (FindPlan_last_plan_wins
           (fun _ =>
              inl [ {| Service.ID := "s1";
                       Service.Plans :=
                         [ {| Plan.ID := "p1"; Plan.Name := "old" |};
                           {| Plan.ID := "p1"; Plan.Name := "new" |} ] |} ])
           Catalog (broker (director "queued") (vault false)) []
           [ {| Service.ID := "s1";
                Service.Plans :=
                  [ {| Plan.ID := "p1"; Plan.Name := "old" |};
                    {| Plan.ID := "p1"; Plan.Name := "new" |} ] |} ]
           [("s1", {| Plan.ID := "p1"; Plan.Name := "old" |})] []
           "s1" {| Plan.ID := "p1"; Plan.Name := "new" |}
           eq_refl eq_refl (Forall_nil_2 _)).
Defined.


(** On the in-memory SHIELD: the job of [i1] is created and looked up. *)
Lemma schedule_name_round_trip_witness :
  head (shield.DeleteSchedule_calls Shield_Client
          (network_client scheduled_shield) "i1" deprovision_details) =
    Some (shield.CallFindJob ("name=" ++ "jobs:s1:p1:i1")).
Proof.
  apply (schedule_name_round_trip Shield_Client
           (network_client empty_shield) (network_client scheduled_shield)
           "i1" provision_details deprovision_details "jobs:s1:p1:i1"
           eq_refl eq_refl).
  vm_compute. apply list_elem_of_further, list_elem_of_here.
Defined.

(** On the fixtures: the job names of instances [i1] and [i1]. *)
Lemma job_query_injective_witness :
  brokerapi.DeprovisionDetails.ServiceID deprovision_details =
    brokerapi.DeprovisionDetails.ServiceID deprovision_details /\
  brokerapi.DeprovisionDetails.PlanID deprovision_details =
    brokerapi.DeprovisionDetails.PlanID deprovision_details /\
  "i1" = "i1".
Proof.
  exact (job_query_injective "i1" "i1" deprovision_details
           deprovision_details eq_refl eq_refl eq_refl eq_refl eq_refl).
Defined.

End MoreOnFixtures.
